(** * The machine-learning service of immich: [app/main.py]

    A shallow embedding of the request handlers of
    [machine-learning/app/main.py] and of the helpers they call, with the
    properties the specification states about them.

    Python values are an inductive type; the module-level dictionary
    [vector_stores] is a [gmap]; a handler is a function in a state-and-
    exception monad over the application state.  What lives outside the
    file (the JSON parser, the model objects, the index library) is taken
    as a parameter or kept as data that the handlers only pass around. *)

From Stdlib Require Import ZArith List Ascii Floats.
From stdpp Require Import base option list strings pretty gmap.

Set Warnings "-register-all".

Local Open Scope string_scope.
Local Open Scope Z_scope.

(** ** Python exceptions *)

(** The exception classes main.py raises, catches or lets through.
    [FileNotFoundError] stands for the subclasses of [OSError]. *)
Inductive exn : Type :=
  | HTTPException (status_code : Z) (detail : string)
  | TypeError
  | KeyError
  | IndexError
  | AttributeError
  | AssertionError
  | JSONDecodeError
  | OSError
  | FileNotFoundError
  | InvalidProtobuf
  | BadZipFile
  | NoSuchFile
  | RuntimeError.

(** The status code FastAPI answers with: that of an [HTTPException], and
    500 for any other exception that leaves a handler. *)
Definition status_of (e : exn) : Z :=
  match e with
  | HTTPException c _ => c
  | _ => 500
  end.

(** The outcome of evaluating an expression: a value or a raised exception. *)
Inductive res (A : Type) : Type :=
  | Ok (a : A)
  | Raise (e : exn).
Arguments Ok {A} a.
Arguments Raise {A} e.

Definition res_bind {A B} (r : res A) (f : A -> res B) : res B :=
  match r with
  | Ok a => f a
  | Raise e => Raise e
  end.

(** ** numpy arrays *)

Module np.

(** An array is its shape and its elements in row-major order. *)
Record ndarray : Type := array { shape : list nat; data : list float }.

(** [len(a.shape)] *)
Definition ndim (a : ndarray) : nat := length (shape a).

(** [np.expand_dims(a, 0)]: a new leading axis of length one. *)
Definition expand_dims0 (a : ndarray) : ndarray :=
  {| shape := 1%nat :: shape a; data := data a |}.

(** [a.shape[i]]; an index past the last axis raises IndexError. *)
Definition shape_at (a : ndarray) (i : nat) : res nat :=
  match shape a !! i with
  | Some n => Ok n
  | None => Raise IndexError
  end.

End np.

(** ** validate_embeddings (main.py, lines 31-39) *)

Definition validate_embeddings (embeddings : np.ndarray) : res np.ndarray :=
  res_bind
    (if decide (np.ndim embeddings = 1%nat) then Ok (np.expand_dims0 embeddings)
     else if decide (np.ndim embeddings ≠ 2%nat) then
       Raise (HTTPException 400
                ("Expected one or two axes for embeddings; got "
                   ++ pretty (np.ndim embeddings)))
     else Ok embeddings)
    (fun embeddings =>
       res_bind (np.shape_at embeddings 1) (fun cols =>
       if decide (cols < 10)%nat then
         Raise (HTTPException 400
                  ("Dimension size must be at least 10; got " ++ pretty cols))
       else Ok embeddings)).

(** ** The index library *)

Module faiss.

(** Modelled from the spec: the vector index, a structure of the external
    similarity-search library, holds float vectors of one fixed
    dimensionality [d], each under an externally supplied string ID. *)
Record IndexIDMap2 : Type :=
  { d : nat; entries : list (string * list float) }.

End faiss.

(** ** Python values *)

(** The values that flow through the handlers.  [VCoroutine f bound] is the
    coroutine object that calling the [async def] function [f] returns: its
    arguments are bound, its body has not started; the body of a coroutine
    runs only while something awaits it. *)
Inductive value : Type :=
  | VNone
  | VBool (b : bool)
  | VInt (z : Z)
  | VFloat (x : float)
  | VStr (s : string)
  | VBytes (b : list Byte.byte)
  | VList (l : list value)
  | VDict (items : list (string * value))
  | VArray (a : np.ndarray)
  | VIndex (ix : faiss.IndexIDMap2)
  | VCoroutine (func : string) (bound : list (string * value)).

(** [index.d]; any other object has no such attribute. *)
Definition getattr_d (v : value) : res nat :=
  match v with
  | VIndex ix => Ok (faiss.d ix)
  | _ => Raise AttributeError
  end.

(** [**kwargs] in a call: the operand must be a mapping. *)
Definition unpack_mapping (v : value) : res (list (string * value)) :=
  match v with
  | VDict items => Ok items
  | _ => Raise TypeError
  end.

(** A response whose JSON body has been rendered from [content]. *)
Inductive response : Type :=
  | JSONResponse (content : value).

(** What [orjson.dumps] can serialise, with the options ORJSONResponse
    passes (numpy arrays are among them): not bytes, not an index, not a
    coroutine object, and no integer outside 64 bits. *)
Fixpoint json_serializable (v : value) : bool :=
  match v with
  | VNone | VBool _ | VFloat _ | VStr _ | VArray _ => true
  | VInt z => (- 2 ^ 63 <=? z) && (z <? 2 ^ 64)
  | VBytes _ | VIndex _ | VCoroutine _ _ => false
  | VList l => forallb json_serializable l
  | VDict items => forallb (fun item => json_serializable item.2) items
  end.

(** [ORJSONResponse(content)]: the constructor renders the body at once,
    and what orjson cannot serialise raises TypeError there (orjson's
    JSONEncodeError is a subclass of it). *)
Definition ORJSONResponse (content : value) : res response :=
  if json_serializable content then Ok (JSONResponse content)
  else Raise TypeError.

(** ** Application state and the handler monad *)

(** What a handler leaves behind besides its answer: the functions it
    handed to [run], and the warnings it logged. *)
Inductive event : Type :=
  | Dispatched (func : string) (args : list value)
      (kwargs : list (string * value))
  | Warned (msg : string).

(** [vector_stores] is the module-level dictionary of line 28;
    [thread_pool] is [app.state.thread_pool]; [events] is a ghost log. *)
Record app_state : Type :=
  { vector_stores : gmap string value;
    thread_pool : option Z;
    events : list event }.

Definition M (S A : Type) : Type := S -> res A * S.

#[global] Instance M_ret {S} : MRet (M S) := fun A a st => (Ok a, st).

#[global] Instance M_bind {S} : MBind (M S) := fun A B f m st =>
  match m st with
  | (Ok a, st') => f a st'
  | (Raise e, st') => (Raise e, st')
  end.

Definition raise {S A} (e : exn) : M S A := fun st => (Raise e, st).

Definition lift {S A} (r : res A) : M S A := fun st => (r, st).

Definition gets {S A} (f : S -> A) : M S A := fun st => (Ok (f st), st).

(** [try: body except <classes>: handler] *)
Definition try_except {S A} (body : M S A) (caught : exn -> bool)
    (handler : M S A) : M S A := fun st =>
  match body st with
  | (Raise e, st') => if caught e then handler st' else (Raise e, st')
  | r => r
  end.

Definition log_event (ev : event) (st : app_state) : app_state :=
  {| vector_stores := vector_stores st;
     thread_pool := thread_pool st;
     events := (events st ++ [ev])%list |}.

Definition record_event (ev : event) : M app_state unit := fun st =>
  (Ok tt, log_event ev st).

(** [log.warn(msg)] *)
Definition log_warn (msg : string) : M app_state unit :=
  record_event (Warned msg).

(** [vector_stores[name] = v] *)
Definition store_index (name : string) (v : value) : M app_state unit :=
  fun st =>
  (Ok tt, {| vector_stores := <[name := v]> (vector_stores st);
             thread_pool := thread_pool st;
             events := events st |}).

(** The settings [init_state] reads (app/config.py). *)
Record Settings : Type := { model_ttl : Z; request_threads : Z }.

(** The state after import and [init_state] (lines 28 and 42-54): no index,
    and a thread pool only for a positive [request_threads]. *)
Definition init_state (settings : Settings) : app_state :=
  {| vector_stores := ∅;
     thread_pool :=
       if decide (request_threads settings > 0)
       then Some (request_threads settings) else None;
     events := [] |}.

(** ** Calling the [async def] helpers *)

(** The signature of an [async def] function: its name, its positional-or-
    keyword parameters (none has a default) and its [**] parameter. *)
Record corofn : Type :=
  { co_name : string; co_params : list string; co_varkw : option string }.

(** Line 192 *)
Definition _add : corofn :=
  {| co_name := "_add";
     co_params := ["index_name"; "embedding_ids"; "embeddings"];
     co_varkw := None |}.

(** Lines 196-198 *)
Definition _search : corofn :=
  {| co_name := "_search";
     co_params := ["index_name"; "embeddings"; "k"];
     co_varkw := None |}.

(** Lines 202-204 *)
Definition _predict : corofn :=
  {| co_name := "_predict";
     co_params := ["model_name"; "model_type"; "inputs"];
     co_varkw := Some "options" |}.

(** Lines 210-213 *)
Definition _create : corofn :=
  {| co_name := "_create";
     co_params := ["embedding_ids"; "embeddings"];
     co_varkw := None |}.

Definition has_key (keys : list string) (kv : string * value) : bool :=
  bool_decide (kv.1 ∈ keys).

(** Python's argument binding.  TypeError for too many positional
    arguments, for a keyword that names a parameter already given by
    position, for a keyword that names no parameter when there is no [**]
    parameter, and for a parameter left without a value. *)
Definition bind_args (f : corofn) (args : list value)
    (kwargs : list (string * value)) : res (list (string * value)) :=
  let params := co_params f in
  let given := take (length args) params in
  let rest := drop (length args) params in
  if decide (length params < length args)%nat then Raise TypeError
  else if existsb (has_key given) kwargs then Raise TypeError
  else if bool_decide (co_varkw f = None)
          && existsb (fun kv => negb (has_key rest kv)) kwargs
  then Raise TypeError
  else if existsb (fun p => bool_decide (p ∉ kwargs.*1)) rest
  then Raise TypeError
  else Ok (zip params args
           ++ filter (fun kv => has_key rest kv) kwargs
           ++ match co_varkw f with
              | Some o =>
                  [(o, VDict (filter (fun kv => negb (has_key rest kv)) kwargs))]
              | None => []
              end)%list.

(** Calling an [async def] function with positional and keyword arguments:
    the arguments are bound and a coroutine object comes back. *)
Definition call (func : corofn) (args : list value)
    (kwargs : list (string * value)) : res value :=
  res_bind (bind_args func args kwargs)
    (fun bound => Ok (VCoroutine (co_name func) bound)).

(** What [run] may hand to the executor: the function, or
    [partial(func, **kwargs)]. *)
Inductive callable : Type :=
  | Fn (func : corofn)
  | Partial (func : corofn) (kwargs : list (string * value)).

Definition call_positional (c : callable) (args : list value) : res value :=
  match c with
  | Fn func => call func args []
  | Partial func kwargs => call func args kwargs
  end.

(** [loop.run_in_executor(pool, func, *args)], awaited: a worker calls
    [func] on [args]; its result, or the exception it raised, is the result of
    the future. *)
Definition run_in_executor (pool : Z) (c : callable) (args : list value)
  : res value := call_positional c args.

(** [run] (lines 164-169) *)
Definition run (func : corofn) (args : list value)
    (kwargs : list (string * value)) : M app_state value :=
  record_event (Dispatched (co_name func) args kwargs);;
  pool ← gets thread_pool;
  match pool with
  | None => lift (call func args kwargs)
  | Some pool =>
      let func' := match kwargs with
                   | [] => Fn func
                   | _ => Partial func kwargs
                   end in
      lift (run_in_executor pool func' args)
  end.

(** The call of [run] with keywords, as on lines 94 and 124.  [run] names
    its own first parameter [func], so a keyword of that name gives the
    parameter a second value: TypeError, before [run] is entered.  Any
    other keyword goes to the keywords of [run]. *)
Definition call_run (func : corofn) (args : list value)
    (kwargs : list (string * value)) : M app_state value :=
  if existsb (has_key ["func"]) kwargs then raise TypeError
  else run func args kwargs.

(** ** The handlers *)

Section Handlers.

(** [orjson.loads]: the parsed value, or [None] for JSONDecodeError. *)
Variable orjson_loads : string -> option value.

(** [pipeline] (lines 72-102) *)
Definition pipeline (model_name model_type options : string)
    (text : option string) (image : option (list Byte.byte))
    (index_name embedding_id : option string) (k : option Z)
  : M app_state response :=
  inputs ← match image, text with
           | Some content, _ => mret (VBytes content)
           | None, Some text => mret (VStr text)
           | None, None =>
               raise (HTTPException 400
                        "Either image or text must be provided")
           end;
  kwargs ← match orjson_loads options with
           | Some parsed => mret parsed
           | None =>
               raise (HTTPException 400 ("Invalid options JSON: " ++ options))
           end;
  kwargs ← lift (unpack_mapping kwargs);
  outputs ← call_run _predict [VStr model_name; VStr model_type; inputs]
              kwargs;
  outputs ← match index_name with
            | Some index_name =>
                outputs ← match k with
                          | Some k =>
                              if decide (k < 1) then
                                raise (HTTPException 400
                                         ("k must be a positive integer; got "
                                            ++ pretty k))
                              else
                                run _search
                                  [VStr index_name; outputs; VInt k] []
                          | None => mret outputs
                          end;
                match embedding_id with
                | Some embedding_id =>
                    run _add
                      [VStr index_name; VList [VStr embedding_id]; outputs]
                      [];;
                    mret outputs
                | None => mret outputs
                end
            | None => mret outputs
            end;
  lift (ORJSONResponse outputs).

(** [predict] (lines 105-125) *)
Definition predict (model_name model_type options : string)
    (text : option string) (image : option (list Byte.byte))
  : M app_state response :=
  inputs ← match image, text with
           | Some content, _ => mret (VBytes content)
           | None, Some text => mret (VStr text)
           | None, None =>
               raise (HTTPException 400
                        "Either image or text must be provided")
           end;
  kwargs ← match orjson_loads options with
           | Some parsed => mret parsed
           | None =>
               raise (HTTPException 400 ("Invalid options JSON: " ++ options))
           end;
  kwargs ← lift (unpack_mapping kwargs);
  outputs ← call_run _predict [VStr model_name; VStr model_type; inputs]
              kwargs;
  lift (ORJSONResponse outputs).

End Handlers.

(** [search] (lines 128-135), called with the array that the dependency
    [validate_embeddings] returned. *)
Definition search (index_name : string) (embeddings : np.ndarray) (k : Z)
  : M app_state response :=
  stores ← gets vector_stores;
  usable ← match stores !! index_name with
           | None => mret false
           | Some index =>
               dim ← lift (getattr_d index);
               cols ← lift (np.shape_at embeddings 1);
               mret (bool_decide (dim = cols))
           end;
  if usable : bool then
    outputs ← run _search [VStr index_name; VArray embeddings; VInt k] [];
    lift (ORJSONResponse outputs)
  else
    raise (HTTPException 404 ("Index '" ++ index_name ++ "' not found")).

(** [create] (lines 150-161).  Line 161 hands [_create] to [run] with no
    argument at all, and stores what comes back. *)
Definition create (index_name : string) (embedding_ids : list string)
    (embeddings : np.ndarray) : M app_state unit :=
  rows ← lift (np.shape_at embeddings 0);
  if decide (rows ≠ length embedding_ids) then
    raise (HTTPException 400
             "Number of embedding IDs must match number of embeddings")
  else
    stores ← gets vector_stores;
    (if decide (is_Some (stores !! index_name)) then
       log_warn ("Index '" ++ index_name ++ "' already exists. Overwriting.")
     else mret tt);;
    index ← run _create [] [];
    store_index index_name index.

(** [add] (lines 138-147) *)
Definition add (index_name : string) (embedding_ids : list string)
    (embeddings : np.ndarray) : M app_state unit :=
  stores ← gets vector_stores;
  usable ← match stores !! index_name with
           | None => mret false
           | Some index =>
               dim ← lift (getattr_d index);
               cols ← lift (np.shape_at embeddings 1);
               mret (bool_decide (dim = cols))
           end;
  if usable : bool then
    run _add
      [VStr index_name; VList (VStr <$> embedding_ids); VArray embeddings] [];;
    mret tt
  else create index_name embedding_ids embeddings.

(** The three index routes as FastAPI serves them: the dependency
    [Depends(validate_embeddings)] runs on the posted array first, and its
    HTTPException, if any, is the answer.  [k] defaults to 10. *)
Definition post_index_search (index_name : string) (embeddings : np.ndarray)
    (k : option Z) : M app_state response :=
  embeddings ← lift (validate_embeddings embeddings);
  search index_name embeddings (default 10 k).

Definition post_index_add (index_name : string) (embedding_ids : list string)
    (embeddings : np.ndarray) : M app_state unit :=
  embeddings ← lift (validate_embeddings embeddings);
  add index_name embedding_ids embeddings.

Definition post_index_create (index_name : string)
    (embedding_ids : list string) (embeddings : np.ndarray)
  : M app_state unit :=
  embeddings ← lift (validate_embeddings embeddings);
  create index_name embedding_ids embeddings.

(** ** Sequences of index requests *)

Inductive request : Type :=
  | Create (index_name : string) (embedding_ids : list string)
      (embeddings : np.ndarray)
  | Add (index_name : string) (embedding_ids : list string)
      (embeddings : np.ndarray)
  | Search (index_name : string) (embeddings : np.ndarray) (k : option Z).

(** The state a request leaves, whatever it answers. *)
Definition serve (st : app_state) (r : request) : app_state :=
  match r with
  | Create name ids embeddings => (post_index_create name ids embeddings st).2
  | Add name ids embeddings => (post_index_add name ids embeddings st).2
  | Search name embeddings k => (post_index_search name embeddings k st).2
  end.

Definition serve_all (st : app_state) (rs : list request) : app_state :=
  fold_left serve rs st.


(** ** Loading a model: [_load] (lines 172-189) *)

Module loader.

(** The model object: what [_load] reads of an [InferenceModel]
    (app/models/base.py). *)
Record InferenceModel : Type :=
  { model_name : string; model_type : string; loaded : bool }.

(** The calls [_load] makes on the model and on the logger, in order. *)
Inductive action : Type :=
  | CalledLoad
  | ClearedCache
  | LoggedWarning (msg : string).

(** The model object, the number of calls of [model.load()] so far, and
    the ghost log of actions. *)
Record model_state : Type :=
  { model : InferenceModel; load_calls : nat; history : list action }.

(** [s.replace(old, new)] for one-character [old] and [new]. *)
Fixpoint replace (old new : ascii) (s : string) : string :=
  match s with
  | EmptyString => EmptyString
  | String c s' =>
      String (if Ascii.eqb c old then new else c) (replace old new s')
  end.

(** The classes of [except (OSError, InvalidProtobuf, BadZipFile,
    NoSuchFile)], each with its subclasses. *)
Definition load_failure (e : exn) : bool :=
  match e with
  | OSError | FileNotFoundError | InvalidProtobuf | BadZipFile
  | NoSuchFile => true
  | _ => false
  end.

(** The text of the warning of lines 181-186; the two literals are adjacent,
    with no blank between the sentences. *)
Definition retry_warning (m : InferenceModel) : string :=
  "Failed to load " ++ replace "_"%char " "%char (model_type m)
    ++ " model '" ++ model_name m ++ "'." ++ "Clearing cache and retrying.".

Section Load.

(** [load_outcome n]: how the call number [n] of [model.load()] ends,
    [None] for a normal return and [Some e] for the exception [e]. *)
Variable load_outcome : nat -> option exn.

Definition act (a : action) (st : model_state) : model_state :=
  {| model := model st;
     load_calls := load_calls st;
     history := (history st ++ [a])%list |}.

(** Modelled from the spec: [model.load()] of app/models/base.py; a
    model handle goes from unloaded to loaded when its load returns. *)
Definition model_load : M model_state unit := fun st =>
  let st' := {| model := model st;
                load_calls := S (load_calls st);
                history := (history st ++ [CalledLoad])%list |} in
  match load_outcome (load_calls st) with
  | Some e => (Raise e, st')
  | None =>
      (Ok tt,
       {| model := {| model_name := model_name (model st);
                      model_type := model_type (model st);
                      loaded := true |};
          load_calls := load_calls st';
          history := history st' |})
  end.

(** Modelled from the spec: [model.clear_cache()] of app/models/base.py
    clears any on-disk cache for that model. *)
Definition model_clear_cache : M model_state unit := fun st =>
  (Ok tt, act ClearedCache st).

Definition warn (msg : string) : M model_state unit := fun st =>
  (Ok tt, act (LoggedWarning msg) st).

(** [_load].  The lock of the model type is taken around the first
    attempt and released on the way out, by return or by exception. *)
Definition _load : M model_state InferenceModel :=
  m ← gets model;
  if loaded m then mret m
  else
    try_except
      (m ← gets model;
       if negb (loaded m) then model_load else mret tt)
      load_failure
      (m ← gets model;
       warn (retry_warning m);;
       model_clear_cache;;
       model_load);;
    gets model.

End Load.

End loader.

(** ** Closed forms and concrete data used in the statements *)

(** The state after lines 158-159 of [create]: a warning is logged when the
    name is taken. *)
Definition warn_overwrite (index_name : string) (st : app_state) : app_state :=
  if decide (is_Some (vector_stores st !! index_name)) then
    log_event
      (Warned ("Index '" ++ index_name ++ "' already exists. Overwriting."))
      st
  else st.

(** The test of lines 132 and 144, negated: the index is in [vector_stores]
    and its [d] is the number of columns of the embeddings. *)
Definition usable_index (st : app_state) (index_name : string)
    (embeddings : np.ndarray) : res bool :=
  match vector_stores st !! index_name with
  | None => Ok false
  | Some index =>
      res_bind (getattr_d index) (fun dim =>
      res_bind (np.shape_at embeddings 1) (fun cols =>
      Ok (bool_decide (dim = cols))))
  end.

(** What [run] returns for [_search] on an array of embeddings. *)
Definition search_coroutine (index_name : string) (embeddings : np.ndarray)
    (k : Z) : value :=
  VCoroutine "_search"
    [("index_name", VStr index_name); ("embeddings", VArray embeddings);
     ("k", VInt k)].

(** What [run] returns for [_predict] on a text, with no option. *)
Definition predict_coroutine (model_name model_type : string)
    (inputs : value) : value :=
  VCoroutine "_predict"
    [("model_name", VStr model_name); ("model_type", VStr model_type);
     ("inputs", inputs); ("options", VDict [])].

(** Two 10-dimensional vectors. *)
Definition vector_a : list float := repeat 0.25%float 10.
Definition vector_b : list float := repeat 0.75%float 10.

(** Two distinct 10-dimensional vectors, one per row. *)
Definition two_vectors : np.ndarray :=
  np.array [2%nat; 10%nat] (vector_a ++ vector_b)%list.

(** One 10-dimensional vector, as a list of floats and as a one-row batch. *)
Definition one_vector : np.ndarray := np.array [10%nat] vector_a.
Definition one_row : np.ndarray := np.array [1%nat; 10%nat] vector_a.

(** An index of dimensionality 10 that holds the two vectors. *)
Definition index_ab : faiss.IndexIDMap2 :=
  {| faiss.d := 10; faiss.entries := [("a", vector_a); ("b", vector_b)] |}.

(** A state in which "foo" names that index. *)
Definition state_with_foo : app_state :=
  {| vector_stores := {[ "foo" := VIndex index_ab ]};
     thread_pool := None;
     events := [] |}.

(** One 12-dimensional vector, as a one-row batch. *)
Definition twelve_wide : np.ndarray :=
  np.array [1%nat; 12%nat] (repeat 0.5%float 12).

(** The first load meets a bad archive, the second a missing file. *)
Definition fails_twice (n : nat) : option exn :=
  match n with
  | O => Some BadZipFile
  | S O => Some NoSuchFile
  | _ => None
  end.

(** A model that has not been loaded, and no call made yet. *)
Definition unloaded_clip : loader.model_state :=
  {| loader.model :=
       {| loader.model_name := "ViT-B-32";
          loader.model_type := "clip";
          loader.loaded := false |};
     loader.load_calls := 0;
     loader.history := [] |}.

(** A stand-in for [orjson.loads] that knows the default options, the
    empty object, and takes anything else for malformed. *)
Definition loads_default (s : string) : option value :=
  if decide (s = "{}") then Some (VDict []) else None.

(** The first bytes of a JPEG file. *)
Definition jpeg : list Byte.byte := [Byte.xff; Byte.xd8; Byte.xff; Byte.xe0].

(** The double-quote character, as a one-character text. *)
Definition quote : string := String (ascii_of_nat 34) EmptyString.

(** The options text that sets the keyword [inputs] to 1. *)
Definition options_inputs : string :=
  "{" ++ quote ++ "inputs" ++ quote ++ ": 1}".

(** The options text that sets the keyword [mode] to 1. *)
Definition options_mode : string :=
  "{" ++ quote ++ "mode" ++ quote ++ ": 1}".

(** A stand-in for [orjson.loads] that knows four well-formed texts, an
    empty object, a list and two one-key objects, and takes anything else
    for malformed. *)
Definition loads_three (s : string) : option value :=
  if decide (s = "{}") then Some (VDict [])
  else if decide (s = "[1]") then Some (VList [VInt 1])
  else if decide (s = options_inputs) then Some (VDict [("inputs", VInt 1)])
  else if decide (s = options_mode) then Some (VDict [("mode", VInt 1)])
  else None.

(** The inputs the two handlers select (lines 83-88 and 113-118). *)
Definition selected (image : option (list Byte.byte)) (text : option string)
  : option value :=
  match image, text with
  | Some content, _ => Some (VBytes content)
  | None, Some text => Some (VStr text)
  | None, None => None
  end.

(** Whether a logged action is a cache clear, a call of [model.load()]. *)
Definition is_cache_clear (a : loader.action) : bool :=
  match a with loader.ClearedCache => true | _ => false end.

Definition is_load_call (a : loader.action) : bool :=
  match a with loader.CalledLoad => true | _ => false end.

(** Every load succeeds. *)
Definition loads_fine (n : nat) : option exn := None.

(** Every load runs out of memory. *)
Definition loads_crash (n : nat) : option exn := Some RuntimeError.

(** * Properties *)

(** ** Input validation *)

Lemma validate_embeddings_vector (n : nat) (elements : list float) :
  validate_embeddings (np.array [n] elements)
  = if decide (n < 10)%nat
    then Raise (HTTPException 400
                  ("Dimension size must be at least 10; got " ++ pretty n))
    else Ok (np.array [1%nat; n] elements).
Proof. reflexivity. Qed.

Lemma validate_embeddings_matrix (r c : nat) (elements : list float) :
  validate_embeddings (np.array [r; c] elements)
  = if decide (c < 10)%nat
    then Raise (HTTPException 400
                  ("Dimension size must be at least 10; got " ++ pretty c))
    else Ok (np.array [r; c] elements).
Proof. reflexivity. Qed.

Lemma validate_embeddings_axes (a : np.ndarray) :
  np.ndim a ≠ 1%nat → np.ndim a ≠ 2%nat →
  validate_embeddings a
  = Raise (HTTPException 400
             ("Expected one or two axes for embeddings; got "
                ++ pretty (np.ndim a))).
Proof.
  intros H1 H2. unfold validate_embeddings.
  destruct (decide (np.ndim a = 1%nat)) as [|_]; [done|].
  destruct (decide (np.ndim a ≠ 2%nat)) as [_|]; [reflexivity | done].
Qed.

(** C3: an array with one axis and at least 10 elements, or with two axes
    and at least 10 columns, is accepted and comes back with two axes, the
    one-axis array as a single row; an array with no axis, with three or
    more axes, or with fewer than 10 columns, is refused with HTTP 400. *)
Theorem validate_embeddings_spec (a : np.ndarray) :
  (∀ n, np.shape a = [n] → (10 ≤ n)%nat →
     validate_embeddings a = Ok (np.array [1%nat; n] (np.data a)))
  ∧ (∀ r c, np.shape a = [r; c] → (10 ≤ c)%nat →
       validate_embeddings a = Ok a)
  ∧ (np.ndim a = 0%nat ∨ (3 ≤ np.ndim a)%nat →
       ∃ detail, validate_embeddings a = Raise (HTTPException 400 detail))
  ∧ (∀ n, np.shape a = [n] → (n < 10)%nat →
       ∃ detail, validate_embeddings a = Raise (HTTPException 400 detail))
  ∧ (∀ r c, np.shape a = [r; c] → (c < 10)%nat →
       ∃ detail, validate_embeddings a = Raise (HTTPException 400 detail)).
Proof.
  destruct a as [sh elements]; cbn [np.shape np.data].
  repeat split.
  - intros n -> Hn. rewrite validate_embeddings_vector.
    destruct (decide (n < 10)%nat); [lia | reflexivity].
  - intros r c -> Hc. rewrite validate_embeddings_matrix.
    destruct (decide (c < 10)%nat); [lia | reflexivity].
  - intros Hax. eexists. apply validate_embeddings_axes;
      unfold np.ndim in *; cbn [np.shape] in *; lia.
  - intros n -> Hn. rewrite validate_embeddings_vector.
    destruct (decide (n < 10)%nat); [eauto | lia].
  - intros r c -> Hc. rewrite validate_embeddings_matrix.
    destruct (decide (c < 10)%nat); [eauto | lia].
Qed.

Lemma validate_embeddings_spec_witness :
  validate_embeddings (np.array [12%nat] (repeat 0.25%float 12))
  = Ok (np.array [1%nat; 12%nat] (repeat 0.25%float 12))
  ∧ validate_embeddings (np.array [2%nat; 10%nat] (repeat 0.25%float 20))
    = Ok (np.array [2%nat; 10%nat] (repeat 0.25%float 20))
  ∧ (∃ detail, validate_embeddings (np.array [] [0.25%float])
               = Raise (HTTPException 400 detail))
  ∧ (∃ detail,
       validate_embeddings
         (np.array [2%nat; 2%nat; 10%nat] (repeat 0.25%float 40))
       = Raise (HTTPException 400 detail))
  ∧ (∃ detail, validate_embeddings (np.array [9%nat] (repeat 0.25%float 9))
               = Raise (HTTPException 400 detail))
  ∧ (∃ detail,
       validate_embeddings (np.array [2%nat; 9%nat] (repeat 0.25%float 18))
       = Raise (HTTPException 400 detail)).
Proof.
  split; [|split; [|split; [|split; [|split]]]].
  - destruct (validate_embeddings_spec
                (np.array [12%nat] (repeat 0.25%float 12)))
      as (H & _).
    apply (H 12%nat); [reflexivity | lia].
  - destruct (validate_embeddings_spec
                (np.array [2%nat; 10%nat] (repeat 0.25%float 20)))
      as (_ & H & _).
    apply (H 2%nat 10%nat); [reflexivity | lia].
  - destruct (validate_embeddings_spec (np.array [] [0.25%float]))
      as (_ & _ & H & _).
    apply H. left; reflexivity.
  - destruct (validate_embeddings_spec
                (np.array [2%nat; 2%nat; 10%nat] (repeat 0.25%float 40)))
      as (_ & _ & H & _).
    apply H. right; cbn; lia.
  - destruct (validate_embeddings_spec
                (np.array [9%nat] (repeat 0.25%float 9)))
      as (_ & _ & _ & H & _).
    apply (H 9%nat); [reflexivity | lia].
  - destruct (validate_embeddings_spec
                (np.array [2%nat; 9%nat] (repeat 0.25%float 18)))
      as (_ & _ & _ & _ & H).
    apply (H 2%nat 9%nat); [reflexivity | lia].
Defined.

(** ** The dispatcher and the helpers it is given *)

(** [run] calls the function once, in the event loop or in a worker, and
    gives back what the call gave: with or without a thread pool the
    outcome is that of [call]. *)
Lemma run_unfold (func : corofn) (args : list value)
    (kwargs : list (string * value)) (st : app_state) :
  run func args kwargs st
  = (call func args kwargs,
     log_event (Dispatched (co_name func) args kwargs) st).
Proof.
  unfold run, mbind, M_bind, record_event, gets, lift; cbn.
  destruct (thread_pool st) as [pool|]; [|reflexivity].
  destruct kwargs; reflexivity.
Qed.

(** Whatever [run] returns for one of the helpers is a coroutine object:
    the helper's body has not run. *)
Lemma run_gives_coroutine (func : corofn) (args : list value)
    (kwargs : list (string * value)) (st : app_state) (v : value) :
  (run func args kwargs st).1 = Ok v →
  ∃ bound, v = VCoroutine (co_name func) bound.
Proof.
  rewrite run_unfold; cbn. unfold call.
  destruct (bind_args func args kwargs) as [bound|e]; cbn; [|done].
  intros [= <-]. by exists bound.
Qed.

(** [run] touches neither the indexes nor the thread pool. *)
Lemma run_vector_stores (func : corofn) (args : list value)
    (kwargs : list (string * value)) (st : app_state) :
  vector_stores (run func args kwargs st).2 = vector_stores st.
Proof. by rewrite run_unfold. Qed.

(** [run(_create)]: [_create] has two parameters and gets no argument. *)
Lemma run__create (st : app_state) :
  run _create [] [] st
  = (Raise TypeError, log_event (Dispatched "_create" [] []) st).
Proof. by rewrite run_unfold. Qed.

(** ** create *)

(** [create] in closed form: it never reaches the assignment of line 161. *)
Lemma create_unfold (index_name : string) (embedding_ids : list string)
    (embeddings : np.ndarray) (st : app_state) :
  create index_name embedding_ids embeddings st
  = match np.shape_at embeddings 0 with
    | Raise e => (Raise e, st)
    | Ok rows =>
        if decide (rows ≠ length embedding_ids) then
          (Raise (HTTPException 400
                    "Number of embedding IDs must match number of embeddings"),
           st)
        else
          (Raise TypeError,
           log_event (Dispatched "_create" [] [])
             (warn_overwrite index_name st))
    end.
Proof.
  unfold create, mbind at 1, M_bind, lift.
  destruct (np.shape_at embeddings 0) as [rows|e]; [|reflexivity].
  destruct (decide (rows ≠ length embedding_ids)); [reflexivity|].
  unfold warn_overwrite, mbind, M_bind, gets, log_warn, record_event; cbn.
  destruct (decide (is_Some (vector_stores st !! index_name)));
    cbn; by rewrite run__create.
Qed.

Lemma warn_overwrite_vector_stores (index_name : string) (st : app_state) :
  vector_stores (warn_overwrite index_name st) = vector_stores st.
Proof. unfold warn_overwrite. by case_decide. Qed.

(** No call of [create] returns normally, and none changes [vector_stores]. *)
Lemma create_raises (index_name : string) (embedding_ids : list string)
    (embeddings : np.ndarray) (st : app_state) :
  ∃ e, (create index_name embedding_ids embeddings st).1 = Raise e.
Proof.
  rewrite create_unfold.
  destruct (np.shape_at embeddings 0); [case_decide|]; eauto.
Qed.

Lemma create_vector_stores (index_name : string) (embedding_ids : list string)
    (embeddings : np.ndarray) (st : app_state) :
  vector_stores (create index_name embedding_ids embeddings st).2
  = vector_stores st.
Proof.
  rewrite create_unfold.
  destruct (np.shape_at embeddings 0); [case_decide|]; cbn;
    auto using warn_overwrite_vector_stores.
Qed.

(** ** search and add *)

Lemma search_unfold (index_name : string) (embeddings : np.ndarray) (k : Z)
    (st : app_state) :
  search index_name embeddings k st
  = match usable_index st index_name embeddings with
    | Raise e => (Raise e, st)
    | Ok true =>
        (ORJSONResponse (search_coroutine index_name embeddings k),
         log_event
           (Dispatched "_search"
              [VStr index_name; VArray embeddings; VInt k] [])
           st)
    | Ok false =>
        (Raise (HTTPException 404 ("Index '" ++ index_name ++ "' not found")),
         st)
    end.
Proof.
  unfold search, usable_index, mbind at 1, M_bind, gets; cbn.
  destruct (vector_stores st !! index_name) as [index|]; cbn; [|reflexivity].
  unfold mbind, M_bind, lift; cbn.
  destruct (getattr_d index) as [dim|e]; cbn; [|reflexivity].
  destruct (np.shape_at embeddings 1) as [cols|e]; cbn; [|reflexivity].
  destruct (bool_decide (dim = cols)); [|reflexivity].
  by rewrite run_unfold.
Qed.

Lemma add_unfold (index_name : string) (embedding_ids : list string)
    (embeddings : np.ndarray) (st : app_state) :
  add index_name embedding_ids embeddings st
  = match usable_index st index_name embeddings with
    | Raise e => (Raise e, st)
    | Ok true =>
        (match call _add
                 [VStr index_name; VList (VStr <$> embedding_ids);
                  VArray embeddings] [] with
         | Ok _ => Ok tt
         | Raise e => Raise e
         end,
         log_event
           (Dispatched "_add"
              [VStr index_name; VList (VStr <$> embedding_ids);
               VArray embeddings] [])
           st)
    | Ok false => create index_name embedding_ids embeddings st
    end.
Proof.
  unfold add, usable_index, mbind, M_bind, gets, lift, mret, M_ret.
  destruct (vector_stores st !! index_name) as [index|]; [|reflexivity].
  destruct (getattr_d index) as [dim|e]; [|reflexivity].
  destruct (np.shape_at embeddings 1) as [cols|e]; [|reflexivity].
  cbn [res_bind]. destruct (bool_decide (dim = cols)); [|reflexivity].
  rewrite run_unfold. by destruct (call _add _ _).
Qed.

Lemma search_vector_stores (index_name : string) (embeddings : np.ndarray)
    (k : Z) (st : app_state) :
  vector_stores (search index_name embeddings k st).2 = vector_stores st.
Proof.
  rewrite search_unfold.
  by destruct (usable_index st index_name embeddings) as [[]|].
Qed.

Lemma add_vector_stores (index_name : string) (embedding_ids : list string)
    (embeddings : np.ndarray) (st : app_state) :
  vector_stores (add index_name embedding_ids embeddings st).2
  = vector_stores st.
Proof.
  rewrite add_unfold.
  destruct (usable_index st index_name embeddings) as [[]|];
    auto using create_vector_stores.
Qed.

(** A missing index, or one of another dimensionality, is not usable. *)
Lemma usable_index_missing (st : app_state) (index_name : string)
    (embeddings : np.ndarray) :
  vector_stores st !! index_name = None →
  usable_index st index_name embeddings = Ok false.
Proof. unfold usable_index. by intros ->. Qed.

Lemma usable_index_dimension (st : app_state) (index_name : string)
    (embeddings : np.ndarray) (ix : faiss.IndexIDMap2) (cols : nat) :
  vector_stores st !! index_name = Some (VIndex ix) →
  np.shape_at embeddings 1 = Ok cols →
  usable_index st index_name embeddings = Ok (bool_decide (faiss.d ix = cols)).
Proof. unfold usable_index. by intros -> ->. Qed.

(** The 404 of [search]: exactly what line 132 tests. *)
Lemma search_not_found (index_name : string) (embeddings : np.ndarray) (k : Z)
    (st : app_state) (cols : nat) :
  np.shape_at embeddings 1 = Ok cols →
  vector_stores st !! index_name = None
  ∨ (∃ ix, vector_stores st !! index_name = Some (VIndex ix)
           ∧ faiss.d ix ≠ cols) →
  search index_name embeddings k st
  = (Raise (HTTPException 404 ("Index '" ++ index_name ++ "' not found")), st).
Proof.
  intros Hcols [Hnone | (ix & Hix & Hd)]; rewrite search_unfold.
  - by rewrite usable_index_missing.
  - rewrite (usable_index_dimension _ _ _ ix cols) by done.
    by rewrite bool_decide_eq_false_2.
Qed.

(** What validation lets through has two axes. *)
Lemma validate_embeddings_shape (a a' : np.ndarray) :
  validate_embeddings a = Ok a' →
  ∃ rows cols, np.shape a' = [rows; cols] ∧ (10 ≤ cols)%nat.
Proof.
  destruct a as [[|r [|c [|x sh]]] elements]; intros H.
  - by rewrite validate_embeddings_axes in H.
  - rewrite validate_embeddings_vector in H. case_decide; [done|].
    injection H as <-. exists 1%nat, r. split; [done | lia].
  - rewrite validate_embeddings_matrix in H. case_decide; [done|].
    injection H as <-. exists r, c. split; [done | lia].
  - by rewrite validate_embeddings_axes in H.
Qed.

(** ** The index routes never change [vector_stores] *)

Lemma serve_vector_stores (st : app_state) (r : request) :
  vector_stores (serve st r) = vector_stores st.
Proof.
  destruct r as [name ids a | name ids a | name a k]; cbn;
    unfold post_index_create, post_index_add, post_index_search,
      mbind, M_bind, lift;
    destruct (validate_embeddings a); cbn;
    auto using create_vector_stores, add_vector_stores, search_vector_stores.
Qed.

Lemma serve_all_vector_stores (rs : list request) (st : app_state) :
  vector_stores (serve_all st rs) = vector_stores st.
Proof.
  unfold serve_all. revert st.
  induction rs as [|r rs IH]; intros st; cbn; [done|].
  by rewrite IH, serve_vector_stores.
Qed.

Lemma post_index_create_unfold (index_name : string)
    (embedding_ids : list string) (a : np.ndarray) (st : app_state) :
  post_index_create index_name embedding_ids a st
  = match validate_embeddings a with
    | Ok embeddings => create index_name embedding_ids embeddings st
    | Raise e => (Raise e, st)
    end.
Proof. reflexivity. Qed.

Lemma post_index_add_unfold (index_name : string)
    (embedding_ids : list string) (a : np.ndarray) (st : app_state) :
  post_index_add index_name embedding_ids a st
  = match validate_embeddings a with
    | Ok embeddings => add index_name embedding_ids embeddings st
    | Raise e => (Raise e, st)
    end.
Proof. reflexivity. Qed.

Lemma post_index_search_unfold (index_name : string) (a : np.ndarray)
    (k : option Z) (st : app_state) :
  post_index_search index_name a k st
  = match validate_embeddings a with
    | Ok embeddings => search index_name embeddings (default 10 k) st
    | Raise e => (Raise e, st)
    end.
Proof. reflexivity. Qed.

Lemma validate_two_vectors : validate_embeddings two_vectors = Ok two_vectors.
Proof. reflexivity. Qed.

Lemma validate_one_vector : validate_embeddings one_vector = Ok one_row.
Proof. reflexivity. Qed.

(** X24: on the running service, which starts with no index, nothing is
    ever stored, so whatever requests came before, a search is refused by
    validation with 400 or ends in the 404, the state untouched. *)
Lemma search_after_requests (settings : Settings) (rs : list request)
    (index_name : string) (a : np.ndarray) (k : option Z) :
  let st := serve_all (init_state settings) rs in
  (∃ detail, post_index_search index_name a k st
             = (Raise (HTTPException 400 detail), st))
  ∨ post_index_search index_name a k st
    = (Raise (HTTPException 404 ("Index '" ++ index_name ++ "' not found")),
       st).
Proof.
  cbn zeta. rewrite post_index_search_unfold.
  destruct (validate_embeddings a) as [embeddings|e] eqn:Hvalid.
  - right. destruct (validate_embeddings_shape _ _ Hvalid)
      as (rows & cols & Hshape & _).
    apply search_not_found with cols.
    + unfold np.shape_at. by rewrite Hshape.
    + left. by rewrite serve_all_vector_stores.
  - left. revert Hvalid. unfold validate_embeddings.
    repeat case_decide; cbn; try (intros [= <-]; by eauto).
    destruct (np.shape_at _ 1) as [cols|e'] eqn:Hcols; cbn.
    + case_decide; [intros [= <-]; by eauto | done].
    + unfold np.shape_at, np.expand_dims0, np.ndim in *.
      destruct a as [[|r [|c sh]] elements]; by cbn in *.
    + destruct (np.shape_at _ 1) as [cols|e'] eqn:Hcols; cbn.
      * case_decide; [intros [= <-]; by eauto | done].
      * unfold np.shape_at, np.ndim in *.
        destruct a as [[|r [|c [|x sh]]] elements]; cbn in *;
          by simplify_eq.
Qed.

(** ** Building an index and searching it *)

(** C2: creating "foo" from the IDs "a" and "b" and two distinct
    10-dimensional vectors does not build the index: the call of line 161
    raises TypeError and [vector_stores] stays empty, so the search that
    follows, with one 10-dimensional query and k = 1, answers 404 and
    returns neither ID. *)
Theorem create_then_search_not_found (settings : Settings) :
  let st0 := init_state settings in
  let created := post_index_create "foo" ["a"; "b"] two_vectors st0 in
  created.1 = Raise TypeError
  ∧ vector_stores created.2 = ∅
  ∧ (post_index_search "foo" one_vector (Some 1) created.2).1
    = Raise (HTTPException 404 "Index 'foo' not found").
Proof.
  cbn zeta.
  rewrite post_index_create_unfold, validate_two_vectors, create_unfold.
  cbn [np.shape_at np.shape two_vectors lookup list_lookup length].
  case_decide; [done|]. cbn [fst snd].
  split; [done|]. split; [done|].
  rewrite post_index_search_unfold, validate_one_vector.
  by rewrite (search_not_found _ _ _ _ 10%nat); [| | left].
Qed.

(** ** Searching *)



(** ** Adding *)

(** C5: adding to an index that does not exist goes to [create], which
    raises TypeError and creates nothing; adding to an index that exists
    with the right dimensionality hands [_add] to [run] and leaves the
    index as it was, so nothing is appended. *)
Theorem add_creates_and_appends_nothing (settings : Settings) :
  let st0 := init_state settings in
  post_index_add "foo" ["a"] one_vector st0
  = (Raise TypeError, log_event (Dispatched "_create" [] []) st0)
  ∧ (post_index_add "foo" ["c"] one_vector state_with_foo).1 = Ok tt
  ∧ vector_stores (post_index_add "foo" ["c"] one_vector state_with_foo).2
    = {[ "foo" := VIndex index_ab ]}.
Proof.
  cbn zeta. split; [|split].
  - rewrite post_index_add_unfold, validate_one_vector, add_unfold.
    rewrite usable_index_missing by done.
    rewrite create_unfold.
    cbn [np.shape_at np.shape one_row lookup list_lookup length].
    case_decide; [done|]. reflexivity.
  - rewrite post_index_add_unfold, validate_one_vector, add_unfold.
    by rewrite (usable_index_dimension _ _ _ index_ab 10%nat).
  - rewrite post_index_add_unfold, validate_one_vector.
    apply add_vector_stores.
Qed.

(** ** Counts of IDs and vectors *)

(** [create] answers 400 when the counts differ, and changes nothing. *)
Lemma create_count_mismatch (index_name : string)
    (embedding_ids : list string) (embeddings : np.ndarray) (st : app_state)
    (rows : nat) :
  np.shape_at embeddings 0 = Ok rows →
  rows ≠ length embedding_ids →
  create index_name embedding_ids embeddings st
  = (Raise (HTTPException 400
              "Number of embedding IDs must match number of embeddings"),
     st).
Proof. intros Hrows Hne. rewrite create_unfold, Hrows. by case_decide. Qed.

(** A [create] whose counts agree gets past that test, to line 161. *)
Lemma create_count_match (index_name : string)
    (embedding_ids : list string) (embeddings : np.ndarray) (st : app_state) :
  np.shape_at embeddings 0 = Ok (length embedding_ids) →
  create index_name embedding_ids embeddings st
  = (Raise TypeError,
     log_event (Dispatched "_create" [] []) (warn_overwrite index_name st)).
Proof. intros Hrows. rewrite create_unfold, Hrows. by case_decide. Qed.

(** [add] answers 400 for differing counts whenever it goes to [create]. *)
Lemma add_count_mismatch_creating (index_name : string)
    (embedding_ids : list string) (embeddings : np.ndarray) (st : app_state)
    (rows : nat) :
  usable_index st index_name embeddings = Ok false →
  np.shape_at embeddings 0 = Ok rows →
  rows ≠ length embedding_ids →
  add index_name embedding_ids embeddings st
  = (Raise (HTTPException 400
              "Number of embedding IDs must match number of embeddings"),
     st).
Proof.
  intros Hu Hrows Hne. rewrite add_unfold, Hu.
  by apply create_count_mismatch with rows.
Qed.

(** C6: when the validated batch has a number of rows other than the
    number of IDs, a create request is answered with 400 in every state,
    and the state, with any entry of [vector_stores], is left as it was;
    so is an add request on the service, whatever requests came before.  A
    create whose counts agree gets past that test, to the call of line
    161. *)
Theorem differing_counts_refused (index_name : string)
    (embedding_ids : list string) (a embeddings : np.ndarray)
    (rows cols : nat) :
  validate_embeddings a = Ok embeddings →
  np.shape embeddings = [rows; cols] →
  (rows ≠ length embedding_ids →
   (∀ st,
      post_index_create index_name embedding_ids a st
      = (Raise (HTTPException 400
                  "Number of embedding IDs must match number of embeddings"),
         st))
   ∧ (∀ settings rs,
        let st := serve_all (init_state settings) rs in
        post_index_add index_name embedding_ids a st
        = (Raise (HTTPException 400
                    "Number of embedding IDs must match number of embeddings"),
           st)))
  ∧ (rows = length embedding_ids →
     ∀ st,
       post_index_create index_name embedding_ids a st
       = (Raise TypeError,
          log_event (Dispatched "_create" [] [])
            (warn_overwrite index_name st))).
Proof.
  intros Hvalid Hshape.
  assert (Hrows : np.shape_at embeddings 0 = Ok rows).
  { unfold np.shape_at. by rewrite Hshape. }
  split; [intros Hne; split|].
  - intros st. rewrite post_index_create_unfold, Hvalid.
    by apply create_count_mismatch with rows.
  - intros settings rs. cbn zeta.
    rewrite post_index_add_unfold, Hvalid.
    apply add_count_mismatch_creating with rows; [|done..].
    apply usable_index_missing. by rewrite serve_all_vector_stores.
  - intros Heq st. rewrite post_index_create_unfold, Hvalid.
    apply create_count_match. by rewrite Hrows, Heq.
Qed.

Lemma differing_counts_refused_witness :
  post_index_create "foo" ["c"] two_vectors state_with_foo
  = (Raise (HTTPException 400
              "Number of embedding IDs must match number of embeddings"),
     state_with_foo)
  ∧ post_index_add "foo" ["c"] two_vectors
      (serve_all (init_state {| model_ttl := 300; request_threads := 2 |})
         [Create "foo" ["a"; "b"] two_vectors])
    = (Raise (HTTPException 400
                "Number of embedding IDs must match number of embeddings"),
       serve_all (init_state {| model_ttl := 300; request_threads := 2 |})
         [Create "foo" ["a"; "b"] two_vectors])
  ∧ post_index_create "foo" ["c"; "d"] two_vectors state_with_foo
    = (Raise TypeError,
       log_event (Dispatched "_create" [] [])
         (warn_overwrite "foo" state_with_foo)).
Proof.
  destruct (differing_counts_refused "foo" ["c"] two_vectors two_vectors
              2 10 eq_refl eq_refl) as [Hdiffer _].
  destruct Hdiffer as [Hcreate Hadd]; [cbn; lia|].
  destruct (differing_counts_refused "foo" ["c"; "d"] two_vectors two_vectors
              2 10 eq_refl eq_refl) as [_ Hmatch].
  split; [apply Hcreate|]. split.
  - apply (Hadd {| model_ttl := 300; request_threads := 2 |}
             [Create "foo" ["a"; "b"] two_vectors]).
  - by apply Hmatch.
Defined.

(** ** Non-positive k *)

(** C9: a search request with k below 1 is not answered with 400.
    [search] never looks at k: on the service, whatever requests came
    before, a search with validated embeddings and such a k is answered
    with 404 because the name is not in [vector_stores]. *)
Theorem search_does_not_check_k (settings : Settings) (rs : list request)
    (index_name : string) (k : Z) :
  k < 1 →
  let st := serve_all (init_state settings) rs in
  post_index_search index_name one_vector (Some k) st
  = (Raise (HTTPException 404 ("Index '" ++ index_name ++ "' not found")),
     st).
Proof.
  intros _. cbn zeta.
  rewrite post_index_search_unfold, validate_one_vector.
  apply search_not_found with 10%nat; [done|].
  left. by rewrite serve_all_vector_stores.
Qed.

Lemma search_does_not_check_k_witness :
  post_index_search "foo" one_vector (Some 0)
    (init_state {| model_ttl := 300; request_threads := 0 |})
  = (Raise (HTTPException 404 "Index 'foo' not found"),
     init_state {| model_ttl := 300; request_threads := 0 |}).
Proof.
  apply (search_does_not_check_k
           {| model_ttl := 300; request_threads := 0 |} [] "foo" 0).
  lia.
Defined.

(** ** Dimensionality of the stored indexes *)



(** ** Loading a model *)

Section LoadFacts.

Import loader.

Variable load_outcome : nat -> option exn.

(** X22: when the model is not loaded and the first [model.load()] returns,
    [_load] returns the model, now loaded, after that one call: no warning
    and no cache clear. *)
Lemma load_first_attempt_returns (st : model_state) :
  loaded (model st) = false →
  load_outcome (load_calls st) = None →
  (_load load_outcome st).1
  = Ok {| model_name := model_name (model st);
          model_type := model_type (model st);
          loaded := true |}
  ∧ history (_load load_outcome st).2 = (history st ++ [CalledLoad])%list.
Proof.
  intros Hl Ho.
  unfold _load, try_except, model_load, mbind, M_bind, gets; cbn.
  repeat (rewrite Hl; cbn). by rewrite Ho.
Qed.

(** X23: a first failure outside the four classes is not retried: the
    exception leaves [_load] after the one call, with no warning and no
    cache clear. *)
Lemma load_other_failure (st : model_state) (e : exn) :
  loaded (model st) = false →
  load_outcome (load_calls st) = Some e →
  load_failure e = false →
  (_load load_outcome st).1 = Raise e
  ∧ history (_load load_outcome st).2 = (history st ++ [CalledLoad])%list.
Proof.
  intros Hl Ho He.
  unfold _load, try_except, model_load, mbind, M_bind, gets; cbn.
  repeat (rewrite Hl; cbn). rewrite Ho. by rewrite He.
Qed.

(** C7: when the first [model.load()] fails with OSError,
    InvalidProtobuf, BadZipFile or NoSuchFile, [_load] clears the cache
    once and calls [model.load()] once more, and nothing after that;
    whatever the second call raises is raised by [_load], and if it
    returns [_load] returns the model.  A model that is loaded already is
    returned at once: no load, no cache clear. *)
Theorem load_retries_once (st : model_state) :
  (loaded (model st) = true →
   _load load_outcome st = (Ok (model st), st))
  ∧ (loaded (model st) = false →
     ∀ e, load_outcome (load_calls st) = Some e → load_failure e = true →
       history (_load load_outcome st).2
       = (history st
          ++ [CalledLoad; LoggedWarning (retry_warning (model st));
              ClearedCache; CalledLoad])%list
       ∧ load_calls (_load load_outcome st).2 = S (S (load_calls st))
       ∧ (_load load_outcome st).1
         = match load_outcome (S (load_calls st)) with
           | Some e2 => Raise e2
           | None => Ok (model (_load load_outcome st).2)
           end).
Proof.
  split.
  - intros Hl. unfold _load, mbind, M_bind, gets; cbn. by rewrite Hl.
  - intros Hl e Ho He.
    unfold _load, try_except, model_load, model_clear_cache, warn, act,
      mbind, M_bind, gets; cbn.
    repeat (rewrite Hl; cbn). rewrite Ho, He; cbn.
    rewrite <- !(assoc_L (++)); cbn.
    destruct (load_outcome (S (load_calls st))) as [e2|]; cbn; done.
Qed.

End LoadFacts.

Lemma load_retries_once_witness :
  loader.history (loader._load fails_twice unloaded_clip).2
  = [loader.CalledLoad;
     loader.LoggedWarning
       "Failed to load clip model 'ViT-B-32'.Clearing cache and retrying.";
     loader.ClearedCache; loader.CalledLoad]
  ∧ loader.load_calls (loader._load fails_twice unloaded_clip).2 = 2%nat
  ∧ (loader._load fails_twice unloaded_clip).1 = Raise NoSuchFile.
Proof.
  destruct (load_retries_once fails_twice unloaded_clip) as [_ H].
  exact (H eq_refl BadZipFile eq_refl eq_refl).
Defined.

(** ** predict and pipeline *)

Lemma run_events (func : corofn) (args : list value)
    (kwargs : list (string * value)) (st : app_state) :
  events (run func args kwargs st).2
  = (events st ++ [Dispatched (co_name func) args kwargs])%list.
Proof. by rewrite run_unfold. Qed.

(** The three helpers bind any three positional arguments. *)
Lemma call__search (index_name embeddings k : value) :
  call _search [index_name; embeddings; k] []
  = Ok (VCoroutine "_search"
          [("index_name", index_name); ("embeddings", embeddings); ("k", k)]).
Proof. reflexivity. Qed.

Lemma call__add (index_name embedding_ids embeddings : value) :
  call _add [index_name; embedding_ids; embeddings] []
  = Ok (VCoroutine "_add"
          [("index_name", index_name); ("embedding_ids", embedding_ids);
           ("embeddings", embeddings)]).
Proof. reflexivity. Qed.

Lemma call__predict (model_name model_type inputs : value) :
  call _predict [model_name; model_type; inputs] []
  = Ok (VCoroutine "_predict"
          [("model_name", model_name); ("model_type", model_type);
           ("inputs", inputs); ("options", VDict [])]).
Proof. reflexivity. Qed.

Lemma bind_args_error (f : corofn) (args : list value)
    (kwargs : list (string * value)) (e : exn) :
  bind_args f args kwargs = Raise e → e = TypeError.
Proof.
  unfold bind_args. intros H.
  repeat (case_match; simplify_eq); done.
Qed.

(** What a call gives back is a coroutine object, and no response can be
    built on one. *)
Lemma call_gives_coroutine (func : corofn) (args : list value)
    (kwargs : list (string * value)) (v : value) :
  call func args kwargs = Ok v → ∃ bound, v = VCoroutine (co_name func) bound.
Proof.
  unfold call. destruct (bind_args func args kwargs) as [bound|e]; [|done].
  intros [= <-]. by exists bound.
Qed.

Lemma call_error (func : corofn) (args : list value)
    (kwargs : list (string * value)) (e : exn) :
  call func args kwargs = Raise e → e = TypeError.
Proof.
  unfold call.
  destruct (bind_args func args kwargs) as [bound|e'] eqn:Hbind; [done|].
  intros [= <-]. by apply bind_args_error in Hbind.
Qed.

Lemma call_run_unfold (func : corofn) (args : list value)
    (kwargs : list (string * value)) (st : app_state) :
  call_run func args kwargs st
  = if existsb (has_key ["func"]) kwargs then (Raise TypeError, st)
    else (call func args kwargs,
          log_event (Dispatched (co_name func) args kwargs) st).
Proof.
  unfold call_run. destruct (existsb _ kwargs); [done|]. apply run_unfold.
Qed.

Lemma filter_has_key_nil (kwargs : list (string * value)) :
  filter (fun kv => has_key [] kv) kwargs = []
  ∧ filter (fun kv => negb (has_key [] kv)) kwargs = kwargs.
Proof.
  induction kwargs as [|kv kwargs [IH1 IH2]]; [done|].
  split.
  - rewrite filter_cons_False; [done|].
    unfold has_key. intros Hin%bool_decide_unpack.
    by apply not_elem_of_nil in Hin.
  - rewrite filter_cons_True; [by rewrite IH2|].
    unfold has_key. rewrite bool_decide_eq_false_2; [done|].
    apply not_elem_of_nil.
Qed.

(** How [_predict] binds three positional arguments and the options. *)
Lemma bind_args__predict (model_name model_type inputs : value)
    (kwargs : list (string * value)) :
  bind_args _predict [model_name; model_type; inputs] kwargs
  = if existsb (has_key ["model_name"; "model_type"; "inputs"]) kwargs
    then Raise TypeError
    else Ok [("model_name", model_name); ("model_type", model_type);
             ("inputs", inputs); ("options", VDict kwargs)].
Proof.
  unfold bind_args; cbn.
  destruct (existsb _ kwargs); [done|].
  destruct (filter_has_key_nil kwargs) as [-> ->]. done.
Qed.

Lemma existsb_has_key (keys : list string) (kwargs : list (string * value)) :
  existsb (has_key keys) kwargs = true ↔ ∃ key, key ∈ kwargs.*1 ∧ key ∈ keys.
Proof.
  rewrite existsb_exists. unfold has_key. split.
  - intros ([key v] & Hin & Hkey). exists key. split.
    + apply list_elem_of_fmap. exists (key, v). split; [done|].
      by apply list_elem_of_In.
    + by apply bool_decide_eq_true_1 in Hkey.
  - intros (key & Hin & Hkey).
    apply list_elem_of_fmap in Hin as ([key' v] & -> & Hin).
    exists (key', v). split; [by apply list_elem_of_In|].
    by apply bool_decide_eq_true_2.
Qed.

Lemma no_func_key (kwargs : list (string * value)) :
  "func" ∉ kwargs.*1 → existsb (has_key ["func"]) kwargs = false.
Proof.
  intros Hno. destruct (existsb _ kwargs) eqn:Hex; [|done].
  apply existsb_has_key in Hex as (key & Hin & Hkey).
  apply list_elem_of_singleton in Hkey as ->. done.
Qed.

Section HandlerFacts.

Variable orjson_loads : string -> option value.

(** [predict] in closed form, for options that parse to a JSON object:
    whatever [run] returns, no response comes of it. *)
Lemma predict_unfold (model_name model_type options : string)
    (text : option string) (image : option (list Byte.byte))
    (inputs : value) (kwargs : list (string * value)) (st : app_state) :
  selected image text = Some inputs →
  orjson_loads options = Some (VDict kwargs) →
  predict orjson_loads model_name model_type options text image st
  = (Raise TypeError,
     if existsb (has_key ["func"]) kwargs then st
     else log_event
            (Dispatched "_predict" [VStr model_name; VStr model_type; inputs]
               kwargs)
            st).
Proof.
  intros Hin Hopt.
  unfold predict, selected, mbind, M_bind, lift, mret, M_ret, raise in *.
  rewrite Hopt.
  destruct image as [content|]; [|destruct text as [t|]];
    simplify_eq; cbn [unpack_mapping];
    rewrite call_run_unfold;
    (destruct (existsb _ kwargs); [done|]);
    (destruct (call _predict _ _) as [outputs|e] eqn:Hcall;
       [apply call_gives_coroutine in Hcall as [bound ->]
       |apply call_error in Hcall as ->]); done.
Qed.

(** C10: a predict request with an image and a text selects the bytes of
    the image, whatever the text, and [run] returns the coroutine of
    [_predict] with those bytes bound as inputs; nothing awaits it, so no
    model is given the bytes, and the request ends in the TypeError of the
    response built on the coroutine.  A pipeline request with the same
    fields ends the same way. *)
Theorem image_reaches_no_model (text : string) (st : app_state) :
  orjson_loads "{}" = Some (VDict []) →
  (call_run _predict [VStr "ViT-B-32"; VStr "clip"; VBytes jpeg] [] st).1
  = Ok (predict_coroutine "ViT-B-32" "clip" (VBytes jpeg))
  ∧ predict orjson_loads "ViT-B-32" "clip" "{}" (Some text) (Some jpeg) st
    = (Raise TypeError,
       log_event
         (Dispatched "_predict" [VStr "ViT-B-32"; VStr "clip"; VBytes jpeg]
            [])
         st)
  ∧ pipeline orjson_loads "ViT-B-32" "clip" "{}" (Some text) (Some jpeg)
      None None None st
    = (Raise TypeError,
       log_event
         (Dispatched "_predict" [VStr "ViT-B-32"; VStr "clip"; VBytes jpeg]
            [])
         st).
Proof.
  intros Hopt. split; [|split].
  - by rewrite call_run_unfold.
  - by rewrite (predict_unfold _ _ _ _ _ (VBytes jpeg) []).
  - unfold pipeline, mbind, M_bind, lift, mret, M_ret, raise.
    rewrite Hopt; cbn [unpack_mapping].
    by rewrite call_run_unfold.
Qed.

End HandlerFacts.

Lemma image_reaches_no_model_witness :
  predict loads_default "ViT-B-32" "clip" "{}" (Some "a dog") (Some jpeg)
    (init_state {| model_ttl := 300; request_threads := 3 |})
  = (Raise TypeError,
     log_event
       (Dispatched "_predict" [VStr "ViT-B-32"; VStr "clip"; VBytes jpeg] [])
       (init_state {| model_ttl := 300; request_threads := 3 |})).
Proof.
  destruct (image_reaches_no_model loads_default "a dog"
              (init_state {| model_ttl := 300; request_threads := 3 |})
              eq_refl) as (_ & Hpredict & _).
  exact Hpredict.
Defined.

Section PipelineFacts.

Variable orjson_loads : string -> option value.

(** C1: a pipeline request with index_name "foo", k = 1 and embedding_id
    "photo-1" runs neither the model nor a search nor an add: each of
    [_predict], [_search] and [_add] is handed to [run], which returns
    its coroutine object unawaited.  [_search] is given the coroutine of
    [_predict] as embeddings, [_add] is given the coroutine of [_search]
    and not what [_predict] gave, [vector_stores] stays empty, and the
    request ends in the TypeError of the response built on the coroutine
    of [_search]. *)
Theorem pipeline_awaits_nothing (settings : Settings) :
  orjson_loads "{}" = Some (VDict []) →
  let predicted := predict_coroutine "ViT-B-32" "clip" (VStr "a dog") in
  let searched :=
    VCoroutine "_search"
      [("index_name", VStr "foo"); ("embeddings", predicted);
       ("k", VInt 1)] in
  let answered :=
    pipeline orjson_loads "ViT-B-32" "clip" "{}" (Some "a dog") None
      (Some "foo") (Some "photo-1") (Some 1) (init_state settings) in
  answered.1 = Raise TypeError
  ∧ ORJSONResponse searched = Raise TypeError
  ∧ events answered.2
    = [Dispatched "_predict" [VStr "ViT-B-32"; VStr "clip"; VStr "a dog"] [];
       Dispatched "_search" [VStr "foo"; predicted; VInt 1] [];
       Dispatched "_add" [VStr "foo"; VList [VStr "photo-1"]; searched] []]
  ∧ vector_stores answered.2 = ∅.
Proof.
  intros Hopt. cbn zeta.
  unfold pipeline, mbind, M_bind, lift, mret, M_ret, raise.
  rewrite Hopt; cbn [unpack_mapping].
  rewrite call_run_unfold; cbn [existsb]. rewrite call__predict.
  case_decide; [lia|].
  rewrite run_unfold, call__search, run_unfold, call__add.
  done.
Qed.

(** X18: the pipeline's own test of k: for options without the key [func],
    once [_predict] has been handed over, a k below 1 is answered with 400
    and nothing else is handed over. *)
Lemma pipeline_nonpositive_k (model_name model_type options : string)
    (text : option string) (image : option (list Byte.byte))
    (index_name : string) (embedding_id : option string) (k : Z)
    (inputs : value) (kwargs : list (string * value))
    (bound : list (string * value)) (st : app_state) :
  selected image text = Some inputs →
  orjson_loads options = Some (VDict kwargs) →
  "func" ∉ kwargs.*1 →
  bind_args _predict [VStr model_name; VStr model_type; inputs] kwargs
  = Ok bound →
  k < 1 →
  pipeline orjson_loads model_name model_type options text image
    (Some index_name) embedding_id (Some k) st
  = (Raise (HTTPException 400
              ("k must be a positive integer; got " ++ pretty k)),
     log_event
       (Dispatched "_predict" [VStr model_name; VStr model_type; inputs]
          kwargs)
       st).
Proof.
  intros Hin Hopt Hfunc%no_func_key Hbind Hk.
  unfold pipeline, selected, mbind, M_bind, lift, mret, M_ret, raise in *.
  rewrite Hopt.
  destruct image as [content|]; [|destruct text as [t|]];
    simplify_eq; cbn [unpack_mapping];
    rewrite call_run_unfold, Hfunc; unfold call; rewrite Hbind;
    cbn [res_bind]; by case_decide.
Qed.

(** X19: whatever else the request holds, a pipeline request with an index
    name and k below 1 never gets a normal answer: it is refused with
    400, or with TypeError when the options cannot be passed to
    [_predict]. *)
Lemma pipeline_nonpositive_k_refused (model_name model_type options : string)
    (text : option string) (image : option (list Byte.byte))
    (index_name : string) (embedding_id : option string) (k : Z)
    (st : app_state) :
  k < 1 →
  ∃ e, (pipeline orjson_loads model_name model_type options text image
          (Some index_name) embedding_id (Some k) st).1 = Raise e
       ∧ (status_of e = 400 ∨ e = TypeError).
Proof.
  intros Hk.
  unfold pipeline, mbind, M_bind, lift, mret, M_ret, raise.
  destruct image as [content|]; [|destruct text as [t|]];
    [| |by eauto];
    (destruct (orjson_loads options) as [parsed|]; [|by eauto]);
    (destruct parsed; cbn [unpack_mapping]; try by eauto);
    rewrite call_run_unfold;
    (destruct (existsb _ items); [by eauto|]);
    unfold call;
    (destruct (bind_args _predict _ _) as [bound|e] eqn:Hbind;
       cbn [res_bind];
       [case_decide; [by eauto | lia] |]);
    (exists e; split; [done|]; right;
     by apply bind_args_error in Hbind).
Qed.

End PipelineFacts.

Lemma pipeline_awaits_nothing_witness :
  (pipeline loads_default "ViT-B-32" "clip" "{}" (Some "a dog") None
     (Some "foo") (Some "photo-1") (Some 1)
     (init_state {| model_ttl := 300; request_threads := 0 |})).1
  = Raise TypeError.
Proof.
  exact (proj1 (pipeline_awaits_nothing loads_default
                  {| model_ttl := 300; request_threads := 0 |} eq_refl)).
Defined.

(** * Further properties *)

(** ** What validation returns *)

Lemma validate_embeddings_error (a : np.ndarray) (e : exn) :
  validate_embeddings a = Raise e → ∃ detail, e = HTTPException 400 detail.
Proof.
  destruct a as [[|r [|c [|x sh]]] elements].
  - rewrite validate_embeddings_axes by done. intros [= <-]. eauto.
  - rewrite validate_embeddings_vector. case_decide; [|done].
    intros [= <-]. eauto.
  - rewrite validate_embeddings_matrix. case_decide; [|done].
    intros [= <-]. eauto.
  - rewrite validate_embeddings_axes by done. intros [= <-]. eauto.
Qed.

Lemma validate_embeddings_data (a a' : np.ndarray) :
  validate_embeddings a = Ok a' → np.data a' = np.data a.
Proof.
  destruct a as [[|r [|c [|x sh]]] elements].
  - by rewrite validate_embeddings_axes.
  - rewrite validate_embeddings_vector. case_decide; [done|]. by intros [= <-].
  - rewrite validate_embeddings_matrix. case_decide; [done|]. by intros [= <-].
  - by rewrite validate_embeddings_axes.
Qed.

(** X1: validation either accepts the array or refuses it with HTTP 400;
    reading the number of columns never runs past the shape, so no
    IndexError and no other exception leaves it. *)
Theorem validate_embeddings_total (a : np.ndarray) :
  (∃ a', validate_embeddings a = Ok a')
  ∨ (∃ detail, validate_embeddings a = Raise (HTTPException 400 detail)).
Proof.
  destruct (validate_embeddings a) as [a'|e] eqn:H; [eauto|].
  right. destruct (validate_embeddings_error _ _ H) as [detail ->]. eauto.
Qed.

(** X2: what validation accepts has exactly two axes and at least 10
    columns, holds the elements of the input unchanged, and is accepted
    again as it is: validating twice is validating once. *)
Theorem validate_embeddings_normal_form (a a' : np.ndarray) :
  validate_embeddings a = Ok a' →
  (∃ rows cols, np.shape a' = [rows; cols] ∧ (10 ≤ cols)%nat)
  ∧ np.data a' = np.data a
  ∧ validate_embeddings a' = Ok a'.
Proof.
  intros H.
  destruct (validate_embeddings_shape _ _ H) as (rows & cols & Hs & Hc).
  split; [eauto|]. split; [by apply validate_embeddings_data|].
  destruct a' as [sh elements]; cbn in Hs; subst sh.
  rewrite validate_embeddings_matrix. case_decide; [lia | done].
Qed.

Lemma validate_embeddings_normal_form_witness :
  (∃ rows cols, np.shape one_row = [rows; cols] ∧ (10 ≤ cols)%nat)
  ∧ np.data one_row = np.data one_vector
  ∧ validate_embeddings one_row = Ok one_row.
Proof.
  apply (validate_embeddings_normal_form one_vector one_row). reflexivity.
Defined.

(** ** The dispatcher *)

(** X3: [run] gives the same outcome with a thread pool and without one,
    whatever the function and the arguments: the function is called once
    either way, keywords being passed directly or through [partial].  It
    changes neither [vector_stores] nor the thread pool. *)
Theorem run_same_with_and_without_pool (func : corofn) (args : list value)
    (kwargs : list (string * value)) (stores : gmap string value)
    (log : list event) (pool : Z) :
  let pooled :=
    {| vector_stores := stores; thread_pool := Some pool; events := log |} in
  let inline :=
    {| vector_stores := stores; thread_pool := None; events := log |} in
  (run func args kwargs pooled).1 = (run func args kwargs inline).1
  ∧ vector_stores (run func args kwargs pooled).2 = stores
  ∧ vector_stores (run func args kwargs inline).2 = stores
  ∧ thread_pool (run func args kwargs pooled).2 = Some pool
  ∧ thread_pool (run func args kwargs inline).2 = None.
Proof. cbn zeta. by rewrite !run_unfold. Qed.

(** X4: handed one of the [async def] helpers, [run] ends in one of two
    ways: it returns the helper's coroutine object, with the positional
    arguments bound to the first parameters in order, or it raises
    TypeError because the arguments do not fit the signature.  The helper's
    own exceptions cannot come out of [run], since its body does not run. *)
Theorem run_coroutine_or_type_error (func : corofn) (args : list value)
    (kwargs : list (string * value)) (st : app_state) :
  (∃ more,
     (run func args kwargs st).1
     = Ok (VCoroutine (co_name func) (zip (co_params func) args ++ more)%list))
  ∨ (run func args kwargs st).1 = Raise TypeError.
Proof.
  rewrite run_unfold; cbn [fst]. unfold call.
  destruct (bind_args func args kwargs) as [bound|e] eqn:Hbind; cbn [res_bind].
  - left. unfold bind_args in Hbind.
    repeat (case_match; simplify_eq); eauto.
  - right. by rewrite (bind_args_error _ _ _ _ Hbind).
Qed.

(** ** The index routes *)

(** X5: no create request is answered normally and none changes
    [vector_stores]: the request is refused with 400 (bad embeddings, or
    counts that differ), or it reaches line 161 and ends in TypeError. *)
Theorem post_index_create_never_succeeds (index_name : string)
    (embedding_ids : list string) (a : np.ndarray) (st : app_state) :
  ∃ e,
    (post_index_create index_name embedding_ids a st).1 = Raise e
    ∧ (status_of e = 400 ∨ e = TypeError)
    ∧ vector_stores (post_index_create index_name embedding_ids a st).2
      = vector_stores st.
Proof.
  rewrite post_index_create_unfold.
  destruct (validate_embeddings a) as [embeddings|e] eqn:Hvalid.
  - destruct (validate_embeddings_shape _ _ Hvalid)
      as (rows & cols & Hshape & _).
    rewrite create_unfold. unfold np.shape_at. rewrite Hshape; cbn.
    case_decide; cbn.
    + eexists. split; [done|]. split; [by left | done].
    + eexists. split; [done|]. split; [by right|].
      apply warn_overwrite_vector_stores.
  - destruct (validate_embeddings_error _ _ Hvalid) as [detail ->].
    eexists. split; [done|]. split; [by left | done].
Qed.

(** X6: a create or add request whose array validates to a batch with a
    number of rows other than the number of IDs is answered with 400 and
    leaves the state as it was, for create always and for add whenever the
    name is not in [vector_stores]. *)
Theorem mismatched_counts_refused (index_name : string)
    (embedding_ids : list string) (a embeddings : np.ndarray)
    (rows cols : nat) (st : app_state) :
  validate_embeddings a = Ok embeddings →
  np.shape embeddings = [rows; cols] →
  rows ≠ length embedding_ids →
  post_index_create index_name embedding_ids a st
  = (Raise (HTTPException 400
              "Number of embedding IDs must match number of embeddings"),
     st)
  ∧ (vector_stores st !! index_name = None →
     post_index_add index_name embedding_ids a st
     = (Raise (HTTPException 400
                 "Number of embedding IDs must match number of embeddings"),
        st)).
Proof.
  intros Hvalid Hshape Hne.
  assert (Hrows : np.shape_at embeddings 0 = Ok rows).
  { unfold np.shape_at. by rewrite Hshape. }
  split.
  - rewrite post_index_create_unfold, Hvalid.
    by apply create_count_mismatch with rows.
  - intros Hnone. rewrite post_index_add_unfold, Hvalid.
    apply add_count_mismatch_creating with rows; [|done..].
    by apply usable_index_missing.
Qed.

Lemma mismatched_counts_refused_witness :
  post_index_create "foo" ["a"] two_vectors state_with_foo
  = (Raise (HTTPException 400
              "Number of embedding IDs must match number of embeddings"),
     state_with_foo)
  ∧ (vector_stores state_with_foo !! "bar" = None →
     post_index_add "bar" ["a"] two_vectors state_with_foo
     = (Raise (HTTPException 400
                 "Number of embedding IDs must match number of embeddings"),
        state_with_foo)).
Proof.
  split.
  - apply (mismatched_counts_refused "foo" ["a"] two_vectors two_vectors
             2 10 state_with_foo); [reflexivity | reflexivity | cbn; lia].
  - apply (mismatched_counts_refused "bar" ["a"] two_vectors two_vectors
             2 10 state_with_foo); [reflexivity | reflexivity | cbn; lia].
Defined.

(** X7: a search request whose array validates is answered with 404, the
    state untouched, when the name is not in [vector_stores] and when the
    index under it has a dimensionality other than the number of columns;
    k plays no part. *)
Theorem post_index_search_not_found (index_name : string)
    (a embeddings : np.ndarray) (rows cols : nat) (k : option Z)
    (st : app_state) :
  validate_embeddings a = Ok embeddings →
  np.shape embeddings = [rows; cols] →
  vector_stores st !! index_name = None
  ∨ (∃ ix, vector_stores st !! index_name = Some (VIndex ix)
           ∧ faiss.d ix ≠ cols) →
  post_index_search index_name a k st
  = (Raise (HTTPException 404 ("Index '" ++ index_name ++ "' not found")), st).
Proof.
  intros Hvalid Hshape Hstore.
  rewrite post_index_search_unfold, Hvalid.
  apply search_not_found with cols; [|done].
  unfold np.shape_at. by rewrite Hshape.
Qed.

Lemma post_index_search_not_found_witness :
  post_index_search "foo" twelve_wide (Some 3) state_with_foo
  = (Raise (HTTPException 404 "Index 'foo' not found"), state_with_foo).
Proof.
  apply (post_index_search_not_found "foo" twelve_wide twelve_wide 1 12
           (Some 3) state_with_foo); [reflexivity | reflexivity |].
  right. exists index_ab. split; [reflexivity | cbn; lia].
Defined.

(** X8: when the name is not in [vector_stores], or names an index of a
    dimensionality other than the number of columns of the embeddings,
    [add] does exactly what [create] does on the same arguments: same
    answer, same state. *)
Theorem add_falls_back_to_create (index_name : string)
    (embedding_ids : list string) (embeddings : np.ndarray) (cols : nat)
    (st : app_state) :
  np.shape_at embeddings 1 = Ok cols →
  vector_stores st !! index_name = None
  ∨ (∃ ix, vector_stores st !! index_name = Some (VIndex ix)
           ∧ faiss.d ix ≠ cols) →
  add index_name embedding_ids embeddings st
  = create index_name embedding_ids embeddings st.
Proof.
  intros Hcols [Hnone | (ix & Hix & Hd)]; rewrite add_unfold.
  - by rewrite usable_index_missing.
  - rewrite (usable_index_dimension _ _ _ ix cols) by done.
    by rewrite bool_decide_eq_false_2.
Qed.

Lemma add_falls_back_to_create_witness :
  add "foo" ["c"] twelve_wide state_with_foo
  = create "foo" ["c"] twelve_wide state_with_foo.
Proof.
  apply (add_falls_back_to_create "foo" ["c"] twelve_wide 12 state_with_foo);
    [reflexivity|].
  right. exists index_ab. split; [reflexivity | cbn; lia].
Defined.

(** X9: when the name is in [vector_stores] with an index whose
    dimensionality is the number of columns of the embeddings, [add]
    returns normally whatever the IDs are: it hands [_add] to [run] once
    with the name, the IDs and the embeddings, and leaves [vector_stores]
    and the index as they were. *)
Theorem add_to_matching_index (index_name : string)
    (embedding_ids : list string) (embeddings : np.ndarray)
    (ix : faiss.IndexIDMap2) (st : app_state) :
  vector_stores st !! index_name = Some (VIndex ix) →
  np.shape_at embeddings 1 = Ok (faiss.d ix) →
  add index_name embedding_ids embeddings st
  = (Ok tt,
     log_event
       (Dispatched "_add"
          [VStr index_name; VList (VStr <$> embedding_ids);
           VArray embeddings] [])
       st).
Proof.
  intros Hix Hcols. rewrite add_unfold.
  rewrite (usable_index_dimension _ _ _ ix (faiss.d ix)) by done.
  by rewrite bool_decide_eq_true_2, call__add.
Qed.

Lemma add_to_matching_index_witness :
  add "foo" [] one_row state_with_foo
  = (Ok tt,
     log_event
       (Dispatched "_add" [VStr "foo"; VList []; VArray one_row] [])
       state_with_foo).
Proof.
  apply (add_to_matching_index "foo" [] one_row index_ab state_with_foo);
    reflexivity.
Defined.

(** ** predict and pipeline: the guards *)

Section GuardFacts.

Variable orjson_loads : string -> option value.

(** X10: a predict or pipeline request with neither image nor text is
    answered with 400 before the options are even parsed: nothing is
    handed to [run] and the state is untouched, whatever the other fields
    hold. *)
Theorem missing_input_refused (model_name model_type options : string)
    (index_name embedding_id : option string) (k : option Z)
    (st : app_state) :
  predict orjson_loads model_name model_type options None None st
  = (Raise (HTTPException 400 "Either image or text must be provided"), st)
  ∧ pipeline orjson_loads model_name model_type options None None
      index_name embedding_id k st
    = (Raise (HTTPException 400 "Either image or text must be provided"), st).
Proof. split; reflexivity. Qed.

(** X11: with an image or a text, options that are not JSON are answered
    with 400 and the offending text in the detail; nothing is handed to
    [run] and the state is untouched. *)
Theorem invalid_options_refused (model_name model_type options : string)
    (text : option string) (image : option (list Byte.byte))
    (index_name embedding_id : option string) (k : option Z)
    (st : app_state) :
  orjson_loads options = None →
  is_Some image ∨ is_Some text →
  predict orjson_loads model_name model_type options text image st
  = (Raise (HTTPException 400 ("Invalid options JSON: " ++ options)), st)
  ∧ pipeline orjson_loads model_name model_type options text image
      index_name embedding_id k st
    = (Raise (HTTPException 400 ("Invalid options JSON: " ++ options)), st).
Proof.
  intros Hopt Hin.
  unfold predict, pipeline, mbind, M_bind, mret, M_ret, raise.
  rewrite Hopt.
  destruct image as [content|]; [done|].
  destruct text as [t|]; [done|].
  destruct Hin as [[? [=]] | [? [=]]].
Qed.

(** X12: options that are JSON but no object (a list, a number, a string,
    null) are not refused with 400: unpacking them as keywords raises
    TypeError, before anything is handed to [run]. *)
Theorem non_object_options_type_error (model_name model_type options : string)
    (text : option string) (image : option (list Byte.byte))
    (index_name embedding_id : option string) (k : option Z)
    (parsed : value) (st : app_state) :
  orjson_loads options = Some parsed →
  (∀ items, parsed ≠ VDict items) →
  is_Some image ∨ is_Some text →
  predict orjson_loads model_name model_type options text image st
  = (Raise TypeError, st)
  ∧ pipeline orjson_loads model_name model_type options text image
      index_name embedding_id k st
    = (Raise TypeError, st).
Proof.
  intros Hopt Hno Hin.
  assert (Hunpack : unpack_mapping parsed = Raise TypeError).
  { destruct parsed; try done. by destruct (Hno items). }
  unfold predict, pipeline, mbind, M_bind, mret, M_ret, raise, lift.
  rewrite Hopt, Hunpack.
  destruct image as [content|]; [done|].
  destruct text as [t|]; [done|].
  destruct Hin as [[? [=]] | [? [=]]].
Qed.

End GuardFacts.

Lemma invalid_options_refused_witness :
  predict loads_three "ViT-B-32" "clip" "{" (Some "a dog") None
    state_with_foo
  = (Raise (HTTPException 400 "Invalid options JSON: {"), state_with_foo)
  ∧ pipeline loads_three "ViT-B-32" "clip" "{" (Some "a dog") None
      (Some "foo") None (Some 1) state_with_foo
    = (Raise (HTTPException 400 "Invalid options JSON: {"), state_with_foo).
Proof.
  apply (invalid_options_refused loads_three "ViT-B-32" "clip" "{"
           (Some "a dog") None (Some "foo") None (Some 1) state_with_foo);
    [reflexivity | right; by eexists].
Defined.

Lemma non_object_options_type_error_witness :
  predict loads_three "ViT-B-32" "clip" "[1]" (Some "a dog") None
    state_with_foo
  = (Raise TypeError, state_with_foo)
  ∧ pipeline loads_three "ViT-B-32" "clip" "[1]" (Some "a dog") None
      (Some "foo") None (Some 1) state_with_foo
    = (Raise TypeError, state_with_foo).
Proof.
  apply (non_object_options_type_error loads_three "ViT-B-32" "clip" "[1]"
           (Some "a dog") None (Some "foo") None (Some 1)
           (VList [VInt 1]) state_with_foo);
    [reflexivity | discriminate | right; by eexists].
Defined.

(** ** predict and pipeline: the options *)

Section OptionFacts.

Variable orjson_loads : string -> option value.

(** X13: an options object with a key named like one of the parameters
    that [_predict] gets by position ([model_name], [model_type], [inputs])
    makes predict and pipeline fail with TypeError, not 400: the call
    would give that parameter two values. *)
Theorem options_naming_parameter_type_error
    (model_name model_type options : string)
    (text : option string) (image : option (list Byte.byte))
    (index_name embedding_id : option string) (k : option Z)
    (inputs : value) (kwargs : list (string * value)) (st : app_state) :
  selected image text = Some inputs →
  orjson_loads options = Some (VDict kwargs) →
  (∃ key, key ∈ kwargs.*1 ∧ key ∈ ["model_name"; "model_type"; "inputs"]) →
  (predict orjson_loads model_name model_type options text image st).1
  = Raise TypeError
  ∧ (pipeline orjson_loads model_name model_type options text image
       index_name embedding_id k st).1
    = Raise TypeError.
Proof.
  intros Hin Hopt Hkey. apply existsb_has_key in Hkey.
  unfold predict, pipeline, selected, mbind, M_bind, lift, mret, M_ret,
    raise in *.
  rewrite Hopt.
  destruct image as [content|]; [|destruct text as [t|]];
    simplify_eq; cbn [unpack_mapping];
    rewrite !call_run_unfold;
    (destruct (existsb (has_key ["func"]) kwargs); [done|]);
    unfold call; rewrite bind_args__predict, Hkey; done.
Qed.

(** X14: an options object whose keys avoid [func] and the three
    parameters that [_predict] gets by position is passed on as it is:
    [run] is called with the parsed keys as keywords and returns the
    coroutine of [_predict] with all of them, unchanged and in order, as
    its [options].  predict then ends in the TypeError of the response
    built on that coroutine, with that one call of [run] behind it. *)
Theorem options_passed_on (model_name model_type options : string)
    (text : option string) (image : option (list Byte.byte))
    (inputs : value) (kwargs : list (string * value)) (st : app_state) :
  selected image text = Some inputs →
  orjson_loads options = Some (VDict kwargs) →
  (∀ key, key ∈ kwargs.*1 →
          key ∉ ["func"; "model_name"; "model_type"; "inputs"]) →
  call_run _predict [VStr model_name; VStr model_type; inputs] kwargs st
  = (Ok (VCoroutine "_predict"
           [("model_name", VStr model_name);
            ("model_type", VStr model_type);
            ("inputs", inputs); ("options", VDict kwargs)]),
     log_event
       (Dispatched "_predict" [VStr model_name; VStr model_type; inputs]
          kwargs)
       st)
  ∧ predict orjson_loads model_name model_type options text image st
    = (Raise TypeError,
       log_event
         (Dispatched "_predict" [VStr model_name; VStr model_type; inputs]
            kwargs)
         st).
Proof.
  intros Hin Hopt Hkeys.
  assert (Hfunc : existsb (has_key ["func"]) kwargs = false).
  { apply no_func_key. intros Hk. apply (Hkeys _ Hk).
    apply list_elem_of_here. }
  assert (Hparams :
    existsb (has_key ["model_name"; "model_type"; "inputs"]) kwargs = false).
  { apply not_true_is_false. intros Hex.
    apply existsb_has_key in Hex as (key & Hk1 & Hk2).
    apply (Hkeys key Hk1). by apply list_elem_of_further. }
  split.
  - rewrite call_run_unfold, Hfunc. unfold call.
    by rewrite bind_args__predict, Hparams.
  - rewrite (predict_unfold _ _ _ _ _ _ inputs kwargs) by done.
    by rewrite Hfunc.
Qed.

End OptionFacts.

Lemma options_naming_parameter_type_error_witness :
  (predict loads_three "ViT-B-32" "clip" options_inputs (Some "a dog") None
     state_with_foo).1
  = Raise TypeError
  ∧ (pipeline loads_three "ViT-B-32" "clip" options_inputs (Some "a dog")
       None (Some "foo") None (Some 1) state_with_foo).1
    = Raise TypeError.
Proof.
  apply (options_naming_parameter_type_error loads_three "ViT-B-32" "clip"
           options_inputs (Some "a dog") None (Some "foo") None (Some 1)
           (VStr "a dog") [("inputs", VInt 1)] state_with_foo);
    [reflexivity | reflexivity |].
  exists "inputs". split; set_solver.
Defined.

Lemma options_passed_on_witness :
  call_run _predict [VStr "ViT-B-32"; VStr "clip"; VBytes jpeg]
    [("mode", VInt 1)] state_with_foo
  = (Ok (VCoroutine "_predict"
           [("model_name", VStr "ViT-B-32"); ("model_type", VStr "clip");
            ("inputs", VBytes jpeg);
            ("options", VDict [("mode", VInt 1)])]),
     log_event
       (Dispatched "_predict" [VStr "ViT-B-32"; VStr "clip"; VBytes jpeg]
          [("mode", VInt 1)])
       state_with_foo)
  ∧ predict loads_three "ViT-B-32" "clip" options_mode None (Some jpeg)
      state_with_foo
    = (Raise TypeError,
       log_event
         (Dispatched "_predict" [VStr "ViT-B-32"; VStr "clip"; VBytes jpeg]
            [("mode", VInt 1)])
         state_with_foo).
Proof.
  apply (options_passed_on loads_three "ViT-B-32" "clip" options_mode None
           (Some jpeg) (VBytes jpeg) [("mode", VInt 1)] state_with_foo);
    [reflexivity | reflexivity |].
  intros key Hkey. cbn in Hkey.
  apply list_elem_of_singleton in Hkey as ->.
  by apply (proj1 (bool_decide_eq_false _)).
Defined.

(** ** pipeline: how the steps compose *)

Section CompositionFacts.

Variable orjson_loads : string -> option value.

(** X15: without an index name, pipeline is predict: k and the embedding
    ID are not looked at, not even a k below 1, and answer and state are
    those of predict on the same fields. *)
Theorem pipeline_without_index_is_predict
    (model_name model_type options : string)
    (text : option string) (image : option (list Byte.byte))
    (embedding_id : option string) (k : option Z) (st : app_state) :
  pipeline orjson_loads model_name model_type options text image None
    embedding_id k st
  = predict orjson_loads model_name model_type options text image st.
Proof.
  unfold pipeline, predict, mbind, M_bind, lift, mret, M_ret, raise.
  destruct image as [content|]; [|destruct text as [t|]]; [| |done];
    (destruct (orjson_loads options) as [parsed|]; [|done]);
    (destruct (unpack_mapping parsed) as [kwargs|e]; [|done]);
    rewrite call_run_unfold;
    (destruct (existsb _ kwargs); [done|]);
    by destruct (call _predict _ _).
Qed.

(** X16: pipeline never reads or writes [vector_stores]: its answer is the
    same in every state, an index name is used without a look at whether
    it names an index, and the indexes are left as they were. *)
Theorem pipeline_ignores_vector_stores
    (model_name model_type options : string)
    (text : option string) (image : option (list Byte.byte))
    (index_name embedding_id : option string) (k : option Z)
    (st st' : app_state) :
  (pipeline orjson_loads model_name model_type options text image
     index_name embedding_id k st).1
  = (pipeline orjson_loads model_name model_type options text image
       index_name embedding_id k st').1
  ∧ vector_stores (pipeline orjson_loads model_name model_type options text
                     image index_name embedding_id k st).2
    = vector_stores st.
Proof.
  unfold pipeline, mbind, M_bind, lift, mret, M_ret, raise.
  destruct image as [content|]; [|destruct text as [t|]]; [| |done];
    (destruct (orjson_loads options) as [parsed|]; [|done]);
    (destruct (unpack_mapping parsed) as [kwargs|e]; [|done]);
    rewrite !call_run_unfold;
    (destruct (existsb _ kwargs); [done|]);
    (destruct (call _predict _ _) as [outputs|e]; [|done]);
    (destruct index_name as [name|]; [|done]);
    (destruct k as [kv|];
       [case_decide; [done|]; rewrite !run_unfold, call__search|]);
    (destruct embedding_id as [eid|]; [|done]);
    rewrite !run_unfold, call__add; done.
Qed.

(** X17: for a request with an index name, inputs, options without the
    key [func] that [_predict] accepts, and k at least 1 when it is set,
    pipeline hands its steps to [run] in the order predict, search, add.
    The search is given what the predict step returned; the add is given
    the one-element list of the embedding ID and what the latest step
    returned.  The request then ends in the TypeError of the response
    built on what the latest of predict and search returned, with
    [vector_stores] and the thread pool as they were. *)
Theorem pipeline_dispatch_order (model_name model_type options : string)
    (text : option string) (image : option (list Byte.byte))
    (index_name : string) (embedding_id : option string) (k : option Z)
    (inputs predicted : value) (kwargs : list (string * value))
    (st : app_state) :
  selected image text = Some inputs →
  orjson_loads options = Some (VDict kwargs) →
  "func" ∉ kwargs.*1 →
  call _predict [VStr model_name; VStr model_type; inputs] kwargs
  = Ok predicted →
  (∀ kv, k = Some kv → 1 ≤ kv) →
  let searched kv :=
    VCoroutine "_search"
      [("index_name", VStr index_name); ("embeddings", predicted);
       ("k", VInt kv)] in
  let latest := match k with Some kv => searched kv | None => predicted end in
  pipeline orjson_loads model_name model_type options text image
    (Some index_name) embedding_id k st
  = (ORJSONResponse latest,
     {| vector_stores := vector_stores st;
        thread_pool := thread_pool st;
        events :=
          (events st
           ++ [Dispatched "_predict"
                 [VStr model_name; VStr model_type; inputs] kwargs]
           ++ match k with
              | Some kv =>
                  [Dispatched "_search"
                     [VStr index_name; predicted; VInt kv] []]
              | None => []
              end
           ++ match embedding_id with
              | Some eid =>
                  [Dispatched "_add"
                     [VStr index_name; VList [VStr eid]; latest] []]
              | None => []
              end)%list |})
  ∧ ORJSONResponse latest = Raise TypeError.
Proof.
  intros Hin Hopt Hfunc%no_func_key Hcall Hk. cbn zeta.
  split.
  - unfold pipeline, selected, mbind, M_bind, lift, mret, M_ret, raise in *.
    rewrite Hopt.
    destruct image as [content|]; [|destruct text as [t|]];
      simplify_eq; cbn [unpack_mapping];
      rewrite call_run_unfold, Hfunc, Hcall;
      (destruct k as [kv|];
         [case_decide; [specialize (Hk kv eq_refl); lia|];
          rewrite run_unfold, call__search|]);
      (destruct embedding_id as [eid|]; [rewrite run_unfold, call__add|]);
      unfold log_event; cbn;
      rewrite <- ?(assoc_L (++)); cbn; done.
  - destruct k as [kv|]; [done|].
    by apply call_gives_coroutine in Hcall as [bound ->].
Qed.

End CompositionFacts.

Lemma pipeline_dispatch_order_witness :
  let predicted := predict_coroutine "ViT-B-32" "clip" (VBytes jpeg) in
  pipeline loads_three "ViT-B-32" "clip" "{}" (Some "a dog") (Some jpeg)
    (Some "foo") (Some "photo-1") None state_with_foo
  = (Raise TypeError,
     {| vector_stores := vector_stores state_with_foo;
        thread_pool := None;
        events :=
          [Dispatched "_predict" [VStr "ViT-B-32"; VStr "clip"; VBytes jpeg]
             [];
           Dispatched "_add" [VStr "foo"; VList [VStr "photo-1"]; predicted]
             []] |}).
Proof.
  cbn zeta.
  destruct (pipeline_dispatch_order loads_three "ViT-B-32" "clip" "{}"
              (Some "a dog") (Some jpeg) "foo" (Some "photo-1") None
              (VBytes jpeg)
              (predict_coroutine "ViT-B-32" "clip" (VBytes jpeg))
              [] state_with_foo)
    as [Hpipeline _];
    [reflexivity | reflexivity | apply not_elem_of_nil | reflexivity
    | discriminate |].
  exact Hpipeline.
Defined.

Lemma pipeline_nonpositive_k_witness :
  pipeline loads_three "ViT-B-32" "clip" "{}" (Some "a dog") None
    (Some "foo") (Some "photo-1") (Some (-2)) state_with_foo
  = (Raise (HTTPException 400
              ("k must be a positive integer; got " ++ pretty (-2))),
     log_event
       (Dispatched "_predict" [VStr "ViT-B-32"; VStr "clip"; VStr "a dog"] [])
       state_with_foo).
Proof.
  apply (pipeline_nonpositive_k loads_three "ViT-B-32" "clip" "{}"
           (Some "a dog") None "foo" (Some "photo-1") (-2) (VStr "a dog") []
           [("model_name", VStr "ViT-B-32"); ("model_type", VStr "clip");
            ("inputs", VStr "a dog"); ("options", VDict [])]
           state_with_foo);
    [reflexivity | reflexivity | apply not_elem_of_nil | reflexivity | lia].
Defined.

Lemma pipeline_nonpositive_k_refused_witness :
  ∃ e, (pipeline loads_three "ViT-B-32" "clip" options_inputs None
          (Some jpeg) (Some "foo") None (Some 0) state_with_foo).1
       = Raise e
       ∧ (status_of e = 400 ∨ e = TypeError).
Proof.
  apply (pipeline_nonpositive_k_refused loads_three "ViT-B-32" "clip"
           options_inputs None (Some jpeg) "foo" None 0 state_with_foo).
  lia.
Defined.

(** ** Loading a model: every outcome *)

Section LoadBounds.

Import loader.

Variable load_outcome : nat -> option exn.

(** X20: whatever the outcomes of [model.load()], one call of [_load]
    makes at most two calls of it and clears the cache at most once, only
    adds to the log, and leaves the name and the type of the model as they
    were. *)
Theorem load_attempts_bounded (st : model_state) :
  let after := (_load load_outcome st).2 in
  (load_calls st ≤ load_calls after ≤ load_calls st + 2)%nat
  ∧ (∃ added,
       history after = (history st ++ added)%list
       ∧ (length (List.filter is_cache_clear added) ≤ 1)%nat
       ∧ length (List.filter is_load_call added)
         = (load_calls after - load_calls st)%nat)
  ∧ model_name (model after) = model_name (model st)
  ∧ model_type (model after) = model_type (model st).
Proof.
  cbn zeta.
  unfold _load, try_except, model_load, model_clear_cache, warn, act,
    mbind, M_bind, gets, mret, M_ret; cbn.
  destruct (loaded (model st)) eqn:Hl; cbn.
  - split; [lia|]. split; [|done].
    exists []. rewrite app_nil_r. split; [done|]. cbn. split; [lia|lia].
  - rewrite Hl; cbn.
    destruct (load_outcome (load_calls st)) as [e|]; cbn.
    + destruct (load_failure e); cbn.
      * destruct (load_outcome (S (load_calls st))) as [e2|]; cbn;
          (split; [lia|]); (split; [|done]);
          eexists [_; _; _; _]; rewrite <- !(assoc_L (++)); cbn;
          (split; [done|]); split;
          cbn; lia.
      * split; [lia|]. split; [|done].
        eexists [_]. split; [done|]. cbn. split; [lia|].
        replace (S (load_calls st) - load_calls st)%nat with 1%nat by lia.
        done.
    + split; [lia|]. split; [|done].
      eexists [_]. split; [done|]. cbn. split; [lia|].
      replace (S (load_calls st) - load_calls st)%nat with 1%nat by lia.
      done.
Qed.

(** X21: when [_load] returns, what it returns is the model object of the
    state, and that model is loaded. *)
Theorem load_returns_loaded_model (st : model_state) (m : InferenceModel) :
  (_load load_outcome st).1 = Ok m →
  m = model (_load load_outcome st).2 ∧ loaded m = true.
Proof.
  unfold _load, try_except, model_load, model_clear_cache, warn, act,
    mbind, M_bind, gets, mret, M_ret; cbn.
  destruct (loaded (model st)) eqn:Hl; cbn.
  - by intros [= <-].
  - rewrite Hl; cbn.
    destruct (load_outcome (load_calls st)) as [e|]; cbn.
    + destruct (load_failure e); cbn; [|done].
      destruct (load_outcome (S (load_calls st))) as [e2|]; cbn; [done|].
      by intros [= <-].
    + by intros [= <-].
Qed.

End LoadBounds.

Lemma load_returns_loaded_model_witness :
  {| loader.model_name := "ViT-B-32"; loader.model_type := "clip";
     loader.loaded := true |}
  = loader.model (loader._load loads_fine unloaded_clip).2
  ∧ loader.loaded
      {| loader.model_name := "ViT-B-32"; loader.model_type := "clip";
         loader.loaded := true |} = true.
Proof.
  apply (load_returns_loaded_model loads_fine unloaded_clip). reflexivity.
Defined.

Lemma load_first_attempt_returns_witness :
  (loader._load loads_fine unloaded_clip).1
  = Ok {| loader.model_name := "ViT-B-32"; loader.model_type := "clip";
          loader.loaded := true |}
  ∧ loader.history (loader._load loads_fine unloaded_clip).2
    = [loader.CalledLoad].
Proof.
  apply (load_first_attempt_returns loads_fine unloaded_clip); reflexivity.
Defined.

Lemma load_other_failure_witness :
  (loader._load loads_crash unloaded_clip).1 = Raise RuntimeError
  ∧ loader.history (loader._load loads_crash unloaded_clip).2
    = [loader.CalledLoad].
Proof.
  apply (load_other_failure loads_crash unloaded_clip RuntimeError);
    reflexivity.
Defined.

(** ** The running service *)

(** X25: on the running service, which starts with no index, no add
    request is ever answered normally, whatever requests came before: it
    is refused with 400 (bad embeddings, or counts that differ) or ends in
    the TypeError of [create], and [vector_stores] stays empty. *)
Theorem add_after_requests (settings : Settings) (rs : list request)
    (index_name : string) (embedding_ids : list string) (a : np.ndarray) :
  let st := serve_all (init_state settings) rs in
  ∃ e,
    (post_index_add index_name embedding_ids a st).1 = Raise e
    ∧ (status_of e = 400 ∨ e = TypeError)
    ∧ vector_stores (post_index_add index_name embedding_ids a st).2 = ∅.
Proof.
  cbn zeta.
  set (st := serve_all (init_state settings) rs).
  assert (Hempty : vector_stores st = ∅)
    by apply serve_all_vector_stores.
  rewrite post_index_add_unfold.
  destruct (validate_embeddings a) as [embeddings|e] eqn:Hvalid.
  - destruct (validate_embeddings_shape _ _ Hvalid)
      as (rows & cols & Hshape & _).
    rewrite add_unfold, usable_index_missing by (by rewrite Hempty).
    rewrite create_unfold. unfold np.shape_at. rewrite Hshape; cbn.
    case_decide; cbn.
    + eexists. split; [done|]. split; [by left | done].
    + eexists. split; [done|]. split; [by right|].
      by rewrite warn_overwrite_vector_stores.
  - destruct (validate_embeddings_error _ _ Hvalid) as [detail ->].
    eexists. split; [done|]. split; [by left | done].
Qed.

(** ** Image and text together *)

(** X26: with an uploaded image, predict and pipeline do the same, answer
    and state, whatever the text field holds or whether there is one: the
    text is not looked at. *)
Theorem text_ignored_with_image (orjson_loads : string -> option value)
    (model_name model_type options : string) (text other : option string)
    (content : list Byte.byte) (index_name embedding_id : option string)
    (k : option Z) (st : app_state) :
  predict orjson_loads model_name model_type options text (Some content) st
  = predict orjson_loads model_name model_type options other (Some content)
      st
  ∧ pipeline orjson_loads model_name model_type options text (Some content)
      index_name embedding_id k st
    = pipeline orjson_loads model_name model_type options other
        (Some content) index_name embedding_id k st.
Proof. split; reflexivity. Qed.
